(** * pydoc-markdown: the render session of [pydoc_markdown/main.py]

    A shallow embedding of [RenderSession] (override application, the
    pipeline runner and the watch-and-serve loop) together with the
    properties of the specification that concern it.

    Python objects are records of a class, the declared struct fields of
    that class and an attribute dictionary.  In-place attribute assignment
    is a functional update of the attribute dictionary; a configuration is
    a tree of freshly deserialised objects, so no object is reachable
    through two paths. *)

From stdpp Require Import gmap strings list fin_maps.

#[local] Open Scope string_scope.
#[local] Set Warnings "-register-all".

(** ** Python values *)

(** A class is known by its name and its method resolution order, which
    starts with the class itself. *)
Record Class := mkClass {
  cls_name : string;
  cls_mro : list string;
}.

(** [nr.databind] datatypes: a [StructType] wraps a struct class, every
    other datatype is irrelevant here. *)
Inductive Datatype :=
| StructType (struct_cls : Class)
| OtherType.

(** An entry of [obj.__fields__]. *)
Record Field := mkField {
  name : string;
  datatype : Datatype;
}.

Inductive Val :=
| VNone
| VBool (b : bool)
| VStrs (l : list string)
| VObj (o : Obj)
with Obj :=
| mkObj (cls : Class) (fields : list Field) (attrs : gmap string Val).

Definition type_ (o : Obj) : Class := match o with mkObj c _ _ => c end.
Definition __fields__ (o : Obj) : list Field := match o with mkObj _ f _ => f end.
Definition __dict__ (o : Obj) : gmap string Val := match o with mkObj _ _ a => a end.

Definition issubclass (c : Class) (base : string) : bool :=
  bool_decide (base ∈ cls_mro c).

Definition isinstance (o : Obj) (base : string) : bool :=
  issubclass (type_ o) base.

Definition getattr (o : Obj) (k : string) : option Val := __dict__ o !! k.

(** [o.k = v] *)
Definition setattr (o : Obj) (k : string) (v : Val) : Obj :=
  mkObj (type_ o) (__fields__ o) (<[k := v]> (__dict__ o)).

(** The quote character, for messages that contain one. *)
Definition dq : string := String (Ascii.ascii_of_nat 34) EmptyString.

(** [repr] of a class name (an identifier, so nothing is escaped). *)
Definition repr (s : string) : string := "'" ++ s ++ "'".

(** ** How a call ends *)

(** [Returned]: the call returned.  [Exited]: [error(...)] printed the line
    to standard error and called [sys.exit] with the code.  [Raised]: an
    exception of the named class went up.  [Running]: used for the
    watch loop only, when the schedule of the environment is used up and
    the loop is still executing. *)
Inductive outcome :=
| Returned
| Running
| Exited (stderr : string) (code : Z)
| Raised (exc : string).

(** [error(msg)]: prints [error: msg] to standard error, then [sys.exit(1)]. *)
Definition error (msg : string) : outcome := Exited ("error: " ++ msg) 1.

(** ** The configuration model *)

(** A module of the symbol graph with [m.location.filename]. *)
Record Module := mkModule {
  module_name : string;
  location_filename : string;
}.

(** The [PydocMarkdown] object, as far as this file reads and writes it:
    its stages and [config.graph.modules]. *)
Record PydocMarkdown := mkPydocMarkdown {
  loaders : list Obj;
  processors : list Obj;
  renderer : Obj;
  graph_modules : list Module;
}.

(** [RenderSession.config : Union[None, dict, str]].  The content of a
    parsed YAML document is consumed by [load_config] only. *)
Inductive ConfigArg :=
| ConfigNone
| ConfigDict
| ConfigStr (filename : string).

Record RenderSession := mkRenderSession {
  config : ConfigArg;
  render_toc : option bool;
  search_path : option (list string);
  modules : option (list string);
  py2 : option bool;
}.

(** Truth value of [self.modules] and [self.search_path]: [None] and the
    empty sequence are false. *)
Definition truthy (l : option (list string)) : bool :=
  match l with
  | Some (_ :: _) => true
  | _ => false
  end.

Definition strs (l : option (list string)) : Val :=
  match l with
  | Some l => VStrs l
  | None => VNone
  end.

(** ** [RenderSession._apply_overrides] *)

(** [next((l for l in config.loaders if isinstance(l, PythonLoader)), None)],
    with the position of the loader, which is mutated in place. *)
Fixpoint find_loader (ls : list Obj) (i : nat) : option (nat * Obj) :=
  match ls with
  | [] => None
  | l :: ls =>
      if isinstance l "PythonLoader" then Some (i, l) else find_loader ls (S i)
  end.

Definition override_loader (self : RenderSession) (loader : Obj) : Obj :=
  let loader :=
    if truthy (modules self)
    then setattr loader "modules" (strs (modules self)) else loader in
  let loader :=
    if truthy (search_path self)
    then setattr loader "search_path" (strs (search_path self)) else loader in
  match py2 self with
  | Some b => setattr loader "print_function" (VBool (negb b))
  | None => loader
  end.

Definition set_loaders (c : PydocMarkdown) (ls : list Obj) : PydocMarkdown :=
  mkPydocMarkdown ls (processors c) (renderer c) (graph_modules c).

Definition set_renderer (c : PydocMarkdown) (r : Obj) : PydocMarkdown :=
  mkPydocMarkdown (loaders c) (processors c) r (graph_modules c).

Definition set_graph_modules (c : PydocMarkdown) (g : list Module) : PydocMarkdown :=
  mkPydocMarkdown (loaders c) (processors c) (renderer c) g.

(** [isinstance(field.datatype, StructType) and
     issubclass(field.datatype.struct_cls, MarkdownRenderer)] *)
Definition is_markdown_field (f : Field) : bool :=
  match datatype f with
  | StructType c => issubclass c "MarkdownRenderer"
  | OtherType => false
  end.

(** The first block: the command-line options of the Python loader. *)
Definition apply_loader_overrides (self : RenderSession) (c : PydocMarkdown)
  : PydocMarkdown * outcome :=
  if truthy (modules self) || truthy (search_path self) || bool_decide (is_Some (py2 self))
  then
    match find_loader (loaders c) 0 with
    | None => (c, error "no python loader found")
    | Some (i, loader) =>
        (set_loaders c (<[i := override_loader self loader]> (loaders c)), Returned)
    end
  else (c, Returned).

(** The second block: the table of contents of the Markdown renderer. *)
Definition apply_renderer_overrides (self : RenderSession) (c : PydocMarkdown)
  : PydocMarkdown * outcome :=
  match render_toc self with
  | None => (c, Returned)
  | Some toc =>
      match List.find is_markdown_field (__fields__ (renderer c)) with
      | Some field =>
          match getattr (renderer c) (name field) with
          | Some (VObj markdown) =>
              (set_renderer c
                 (setattr (renderer c) (name field)
                    (VObj (setattr markdown "render_toc" (VBool toc)))),
               Returned)
          | _ => (c, Raised "AttributeError")
          end
      | None =>
          if isinstance (renderer c) "MarkdownRenderer"
          then (set_renderer c (setattr (renderer c) "render_toc" (VBool toc)), Returned)
          else (c, error ("renderer " ++ repr (cls_name (type_ (renderer c)))
                          ++ " does not expose a MarkdownRenderer"))
      end
  end.

Definition _apply_overrides (self : RenderSession) (c : PydocMarkdown)
  : PydocMarkdown * outcome :=
  match apply_loader_overrides self c with
  | (c, Returned) => apply_renderer_overrides self c
  | failed => failed
  end.

(** ** [RenderSession.render] *)

(** Modelled from the spec: the class [PydocMarkdown] is not part of this
    file.  Its three stage methods are taken as the environment decides
    them in one run: each either returns or raises (a stage failure aborts
    the run), and the load and process stages leave
    [config.graph.modules] behind, each module with its file. *)
Record Stages := mkStages {
  load_modules_raises : option string;
  process_raises : option string;
  render_raises : option string;
  graph_after : list Module;
}.

(** The value bound to the parameter [config] of [render]: the method tests
    it with [isinstance(config, str)]. *)
Inductive PyArg :=
| ArgStr (s : string)
| ArgConfig (c : PydocMarkdown).

Inductive completion (A : Type) :=
| Normal (a : A)
| Throw (exc : string).
Arguments Normal {A} a.
Arguments Throw {A} exc.

(** [config.load_modules(); config.process(); config.render()].  A [str]
    has none of these methods. *)
Definition run_stages (arg : PyArg) (st : Stages) : completion PydocMarkdown :=
  match arg with
  | ArgStr _ => Throw "AttributeError"
  | ArgConfig c =>
      match load_modules_raises st with
      | Some x => Throw x
      | None =>
          match process_raises st with
          | Some x => Throw x
          | None =>
              match render_raises st with
              | Some x => Throw x
              | None => Normal (set_graph_modules c (graph_after st))
              end
          end
      end
  end.

(** The generator [m.location.filename for m in config.graph.modules]. *)
Definition module_filenames (c : PydocMarkdown) : list string :=
  location_filename <$> graph_modules c.

(** The returned list holds the elements of the set; a Python set has no
    order of its own, so only the members of the list mean something. *)
Definition render (self : RenderSession) (arg : PyArg) (st : Stages)
  : completion (PydocMarkdown * list string) :=
  match run_stages arg st with
  | Throw x => Throw x
  | Normal c =>
      let watch_files : gset string :=
        list_to_set (module_filenames c) in
      let watch_files : gset string :=
        match arg with
        | ArgStr s => watch_files ∪ {[ s ]}
        | ArgConfig _ => watch_files
        end in
      Normal (c, elements watch_files)
  end.

(** ** [RenderSession.watch_and_serve] *)

Definition MKDOCS_DEFAULT_SERVE_URL : string := "http://localhost:8000".

(** What the control thread does to its collaborators, in order. *)
Inductive Action :=
| Log (msg : string)
| Render (files : option (list string))
| Stop (obs : nat)
| Watch (obs : nat) (paths : list string)
| Serve (proc : nat)
| OpenBrowser (url : string)
| Wait (ev : nat)
| Terminate (proc : nat).

(** The local variables of [watch_and_serve], the [threading.Event] flags
    of the registrations made so far, the next free handle and the
    actions done so far.  An observer and its event share a handle. *)
Record LoopState := mkLoopState {
  pydocmd : PydocMarkdown;
  observer : option nat;
  event : option nat;
  process : option nat;
  watch_files : list string;
  flags : gmap nat bool;
  next_handle : nat;
  trace : list Action;
}.

(** The environment of one pass through the loop body: how the stages end,
    how many change signals the file watch delivers while the render is in
    flight and while the loop waits, and which collaborator raises. *)
Record Env := mkEnv {
  stages : Stages;
  changes_in_render : nat;
  watch_paths_raises : option string;
  mkdocs_serve_raises : option string;
  webbrowser_raises : option string;
  changes_in_wait : nat;
  wait_raises : option string;
}.

Definition set_changes_in_render (n : nat) (e : Env) : Env :=
  mkEnv (stages e) n (watch_paths_raises e) (mkdocs_serve_raises e)
    (webbrowser_raises e) (changes_in_wait e) (wait_raises e).

(** State and exceptions of the control thread. *)
Definition M (A : Type) : Type := LoopState -> LoopState * completion A.

#[global] Instance M_ret : MRet M := fun A a s => (s, Normal a).
#[global] Instance M_bind : MBind M := fun A B k m s =>
  match m s with
  | (s', Normal a) => k a s'
  | (s', Throw x) => (s', Throw x)
  end.
Definition raise {A} (x : string) : M A := fun s => (s, Throw x).
Definition read {A} (f : LoopState -> A) : M A := fun s => (s, Normal (f s)).
Definition modify (f : LoopState -> LoopState) : M unit := fun s => (f s, Normal tt).

Definition do_action (a : Action) (s : LoopState) : LoopState :=
  mkLoopState (pydocmd s) (observer s) (event s) (process s) (watch_files s)
    (flags s) (next_handle s) (trace s ++ [a]).

Definition emit (a : Action) : M unit := modify (do_action a).

Definition logger_info (msg : string) : M unit := emit (Log msg).

(** [event.is_set()] *)
Definition is_set (s : LoopState) (ev : nat) : bool :=
  default false (flags s !! ev).

(** One change signal: the handler of the running observer sets the event
    paired with it.  Without a registration nothing listens. *)
Definition change_signal (s : LoopState) : LoopState :=
  match event s with
  | Some ev =>
      mkLoopState (pydocmd s) (observer s) (event s) (process s) (watch_files s)
        (<[ev := true]> (flags s)) (next_handle s) (trace s)
  | None => s
  end.

Definition change_signals (n : nat) : M unit := modify (Nat.iter n change_signal).

(** [watch_files = self.render(config)] *)
Definition call_render (self : RenderSession) (st : Stages) : M unit :=
  fun s =>
    match render self (ArgConfig (pydocmd s)) st with
    | Throw x => (do_action (Render None) s, Throw x)
    | Normal (c, files) =>
        (mkLoopState c (observer s) (event s) (process s) files
           (flags s) (next_handle s) (trace s ++ [Render (Some files)]), Normal tt)
    end.

(** Modelled from the spec: [observer.stop()] of the file watch, which is
    always safe to call and does not raise. *)
Definition observer_stop (o : nat) : M unit := emit (Stop o).

(** Modelled from the spec: [watch_paths] of [pydoc_markdown.util.watchdog]
    is not part of this file.  [observer, event = watch_paths(watch_files)]
    makes a registration on the paths and returns its handle and its change
    signal: a new observer, paired with a new event that is not set, unless
    the call raises. *)
Definition call_watch_paths (e : Env) : M unit :=
  fun s =>
    match watch_paths_raises e with
    | Some x => (s, Throw x)
    | None =>
        let h := next_handle s in
        (mkLoopState (pydocmd s) (Some h) (Some h) (process s) (watch_files s)
           (<[h := false]> (flags s)) (S h) (trace s ++ [Watch h (watch_files s)]),
         Normal tt)
    end.

(** Modelled from the spec: [MkdocsRenderer.mkdocs_serve] is not part of
    this file.  [process = config.renderer.mkdocs_serve()] starts the
    preview server and returns the handle of the new process, unless the
    call raises. *)
Definition call_mkdocs_serve (e : Env) : M unit :=
  fun s =>
    match mkdocs_serve_raises e with
    | Some x => (s, Throw x)
    | None =>
        let h := next_handle s in
        (mkLoopState (pydocmd s) (observer s) (event s) (Some h) (watch_files s)
           (flags s) (S h) (trace s ++ [Serve h]), Normal tt)
    end.

(** [webbrowser.open(MKDOCS_DEFAULT_SERVE_URL)] *)
Definition call_webbrowser_open (e : Env) : M unit :=
  match webbrowser_raises e with
  | Some x => raise x
  | None => emit (OpenBrowser MKDOCS_DEFAULT_SERVE_URL)
  end.

(** [event.wait(0.5)]: returns when the event is set or the half second is
    over; an interrupt of the process arrives here as an exception. *)
Definition call_event_wait (e : Env) : M unit :=
  ev ← read event;
  match ev with
  | None => raise "AttributeError"
  | Some i =>
      emit (Wait i) ;;
      change_signals (changes_in_wait e) ;;
      match wait_raises e with
      | Some x => raise x
      | None => mret tt
      end
  end.

(** The body of [while True]. *)
Definition loop_body (self : RenderSession) (open_browser : bool) (e : Env) : M unit :=
  ev ← read event;
  changed ← read (fun s => match ev with None => true | Some i => is_set s i end);
  (if changed : bool then
     logger_info "Rendering." ;;
     change_signals (changes_in_render e) ;;
     call_render self (stages e) ;;
     obs ← read observer;
     match obs with
     | Some o => observer_stop o
     | None => mret tt
     end ;;
     call_watch_paths e
   else mret tt) ;;
  p ← read process;
  match p with
  | None =>
      logger_info "Starting MkDocs serve." ;;
      call_mkdocs_serve e ;;
      if open_browser then call_webbrowser_open e else mret tt
  | Some _ => mret tt
  end ;;
  call_event_wait e.

(** [while True]: one pass per entry of the schedule.  [Normal] means the
    schedule is used up with the loop still executing. *)
Fixpoint while_true (self : RenderSession) (open_browser : bool) (sched : list Env)
  : M unit :=
  match sched with
  | [] => mret tt
  | e :: sched => loop_body self open_browser e ;; while_true self open_browser sched
  end.

(** The [finally] block. *)
Definition finally_block (s : LoopState) : LoopState :=
  let s :=
    match observer s with
    | Some o => do_action (Stop o) s
    | None => s
    end in
  match process s with
  | Some p => do_action (Terminate p) s
  | None => s
  end.

Definition initial (c : PydocMarkdown) : LoopState :=
  mkLoopState c None None None [] ∅ 0 [].

Definition watch_and_serve (self : RenderSession) (c : PydocMarkdown)
  (open_browser : bool) (sched : list Env) : LoopState * outcome :=
  if negb (isinstance (renderer c) "MkdocsRenderer")
  then
    (initial c,
     error ("--watch-and-serve can only be used in combination with the "
            ++ dq ++ "mkdocs" ++ dq ++ " renderer."))
  else
    match while_true self open_browser sched (initial c) with
    | (s, Normal _) => (s, Running)
    | (s, Throw x) => (finally_block s, Raised x)
    end.

(** ** Sample classes, objects and schedules *)

Definition PythonLoader : Class :=
  mkClass "PythonLoader" ["PythonLoader"; "Loader"; "Struct"; "object"].
Definition MarkdownRenderer : Class :=
  mkClass "MarkdownRenderer" ["MarkdownRenderer"; "Renderer"; "Struct"; "object"].
Definition MkdocsRenderer : Class :=
  mkClass "MkdocsRenderer" ["MkdocsRenderer"; "Renderer"; "Struct"; "object"].
Definition PlainRenderer : Class :=
  mkClass "PlainRenderer" ["PlainRenderer"; "Renderer"; "Struct"; "object"].

Definition a_loader : Obj :=
  mkObj PythonLoader
    [mkField "modules" OtherType; mkField "search_path" OtherType;
     mkField "print_function" OtherType]
    {[ "modules" := VStrs ["pkg.a"]; "print_function" := VBool true ]}.

Definition a_markdown : Obj :=
  mkObj MarkdownRenderer [mkField "render_toc" OtherType]
    {[ "render_toc" := VBool false ]}.

Definition a_mkdocs : Obj :=
  mkObj MkdocsRenderer
    [mkField "output_directory" OtherType;
     mkField "markdown" (StructType MarkdownRenderer)]
    {[ "markdown" := VObj a_markdown ]}.

Definition a_plain : Obj := mkObj PlainRenderer [] ∅.

Definition markdown_config : PydocMarkdown := mkPydocMarkdown [a_loader] [] a_markdown [].
Definition mkdocs_config : PydocMarkdown := mkPydocMarkdown [a_loader] [] a_mkdocs [].
Definition plain_config : PydocMarkdown := mkPydocMarkdown [a_loader] [] a_plain [].
Definition no_loader_config : PydocMarkdown := mkPydocMarkdown [] [] a_markdown [].

Definition good_stages : Stages :=
  mkStages None None None
    [mkModule "pkg.a" "a.py"; mkModule "pkg.b" "b.py"; mkModule "pkg.a.x" "a.py"].
Definition bad_stages : Stages := mkStages None (Some "ValueError") None [].

(** A pass in which nothing raises, with the given numbers of change
    signals during the render and during the wait. *)
Definition pass (in_render in_wait : nat) : Env :=
  mkEnv good_stages in_render None None None in_wait None.
Definition failing_pass : Env := mkEnv bad_stages 0 None None None 0 None.
Definition interrupted_pass : Env :=
  mkEnv good_stages 0 None None None 0 (Some "KeyboardInterrupt").

Definition two_files : list string := ["a.py"; "b.py"].

Definition file_session : RenderSession :=
  mkRenderSession (ConfigStr "pydoc-markdown.yml") None None None None.

(** ** Reading a trace *)

Definition is_Render (a : Action) : bool :=
  match a with Render _ => true | _ => false end.
Definition is_Serve (a : Action) : bool :=
  match a with Serve _ => true | _ => false end.

(** The number of calls of [self.render] and of [mkdocs_serve] that
    returned or raised, resp. returned. *)
Definition renders (t : list Action) : nat := length (List.filter is_Render t).
Definition serves (t : list Action) : nat := length (List.filter is_Serve t).

(** The observer of the last registration and the process started, as the
    trace shows them. *)
Definition last_watch (t : list Action) : option nat :=
  foldl (λ acc a, match a with Watch o _ => Some o | _ => acc end) None t.
Definition served (t : list Action) : option nat :=
  foldl (λ acc a, match a with Serve p => Some p | _ => acc end) None t.

(** What the [finally] block does after the actions [t] of the loop. *)
Definition cleanup (t : list Action) : list Action :=
  (match last_watch t with Some o => [Stop o] | None => [] end)
  ++ (match served t with Some p => [Terminate p] | None => [] end).

(** Nothing raises in the pass. *)
Definition peaceful (e : Env) : Prop :=
  load_modules_raises (stages e) = None ∧ process_raises (stages e) = None
  ∧ render_raises (stages e) = None ∧ watch_paths_raises e = None
  ∧ mkdocs_serve_raises e = None ∧ webbrowser_raises e = None
  ∧ wait_raises e = None.

(** The next pass renders: there is no event yet, or the event is set. *)
Definition renders_now (s : LoopState) : bool :=
  match event s with None => true | Some i => is_set s i end.

(** Nothing raises in the pass and no change signal arrives in its wait. *)
Definition quiet (e : Env) : Prop := peaceful e ∧ changes_in_wait e = 0.

(** Every registration in the trace is stopped later in the trace. *)
Definition all_stopped (t : list Action) : Prop :=
  ∀ t1 o fs t2, t = (t1 ++ Watch o fs :: t2)%list → Stop o ∈ t2.

(** A call of [self.render] returned. *)
Definition rendered (t : list Action) : Prop := ∃ fs, Render (Some fs) ∈ t.

(** What holds of the local variables [observer] and [process] and of the
    actions done, at every point of the loop. *)
Record loop_inv (obs proc : option nat) (t : list Action) : Prop := mkLoopInv {
  inv_observer : obs = last_watch t;
  inv_process : proc = served t;
  inv_no_terminate : ∀ p, Terminate p ∉ t;
  inv_serve_process : ∀ p, Serve p ∈ t → proc = Some p;
  inv_serves : serves t = match proc with Some _ => 1 | None => 0 end;
  inv_watch : ∀ t1 o fs t2, t = (t1 ++ Watch o fs :: t2)%list → Stop o ∈ t2 ∨ obs = Some o;
  inv_serve_rendered : ∀ t1 p t2, t = (t1 ++ Serve p :: t2)%list → rendered t1;
}.

Definition J (s : LoopState) : Prop := loop_inv (observer s) (process s) (trace s).

(** Between two passes: the first pass has not been made, or a process
    is running. *)
Definition B (s : LoopState) : Prop := process s = None → event s = None.

(** Actions that concern neither a registration being made nor the
    process. *)
Definition plain (a : Action) : bool :=
  match a with
  | Watch _ _ | Serve _ | Terminate _ => false
  | _ => true
  end.

(** ** A program logic for the control thread *)

(** From a state in [P] the computation ends normally in [Q], or by an
    exception in [R]. *)
Definition triple {A} (P : LoopState → Prop) (m : M A)
    (Q : A → LoopState → Prop) (R : LoopState → Prop) : Prop :=
  ∀ s, P s →
    match m s with
    | (s', Normal a) => Q a s'
    | (s', Throw _) => R s'
    end.

(** ** The protocol of the loop *)

(** What holds of an action done after the actions [t1]: a render follows
    its log line; a stop and a wait are on the last registration; a
    registration is made on the files of the render just made, when every
    earlier registration is stopped; the process is started once, after a
    render that returned; the browser is opened right after that, when it
    was asked for; a termination request goes to the process started. *)
Definition step_ok (open_browser : bool) (t1 : list Action) (a : Action) : Prop :=
  match a with
  | Log _ => True
  | Render _ => ∃ t0, t1 = (t0 ++ [Log "Rendering."])%list
  | Stop o => last_watch t1 = Some o
  | Watch o fs =>
      all_stopped t1
      ∧ ((∃ t0, t1 = (t0 ++ [Render (Some fs)])%list)
         ∨ (∃ t0 o', t1 = (t0 ++ [Render (Some fs); Stop o'])%list))
  | Serve p => served t1 = None ∧ rendered t1
  | OpenBrowser url =>
      open_browser = true ∧ url = MKDOCS_DEFAULT_SERVE_URL
      ∧ ∃ t0 p, t1 = (t0 ++ [Serve p])%list
  | Wait i => last_watch t1 = Some i ∧ served t1 ≠ None
  | Terminate p => served t1 = Some p
  end.

Definition protocol (open_browser : bool) (t : list Action) : Prop :=
  ∀ t1 a t2, t = (t1 ++ a :: t2)%list → step_ok open_browser t1 a.

Definition Inv (open_browser : bool) (s : LoopState) : Prop :=
  J s ∧ event s = observer s ∧ protocol open_browser (trace s).

(** The environment raises [x] at some call of the pass. *)
Definition raises (e : Env) (x : string) : Prop :=
  load_modules_raises (stages e) = Some x ∨ process_raises (stages e) = Some x
  ∨ render_raises (stages e) = Some x ∨ watch_paths_raises e = Some x
  ∨ mkdocs_serve_raises e = Some x ∨ webbrowser_raises e = Some x
  ∨ wait_raises e = Some x.

(** The renders of a schedule in which nothing raises: a pass renders when
    it is the first one or when a change signal arrived in the wait of the
    pass before it ([pending]). *)
Fixpoint expected_renders (pending : bool) (sched : list Env) : nat :=
  match sched with
  | [] => 0
  | e :: sched =>
      (if pending then 1 else 0)
      + expected_renders (Nat.leb 1 (changes_in_wait e)) sched
  end.

(** The event of the state, if there is one, has a flag. *)
Definition flagged (s : LoopState) : Prop :=
  match event s with
  | Some i => is_Some (flags s !! i)
  | None => True
  end.

(** ** The command line: [cli] *)

Definition config_filenames : list string :=
  ["pydoc-markdown.yml"; "pydoc-markdown.yaml"].

Definition newline : Ascii.ascii := Ascii.ascii_of_nat 10.

(** A literal between triple quotes that starts with a line break and
    holds the given lines. *)
Definition text (lines : list string) : string :=
  String newline (foldr (λ l rest, l ++ String newline rest) "" lines).

(** [str.isspace] on the characters of ASCII. *)
Definition isspace (a : Ascii.ascii) : bool :=
  let n := Ascii.nat_of_ascii a in
  (Nat.leb 9 n && Nat.leb n 13) || (Nat.leb 28 n && Nat.leb n 32).

(** [s.lstrip()] *)
Fixpoint lstrip (s : string) : string :=
  match s with
  | String a rest => if isspace a then lstrip rest else s
  | EmptyString => s
  end.

(** [s.startswith(prefix)] *)
Definition startswith (s prefix : string) : bool := String.prefix prefix s.

(** [a in s] for a character [a] *)
Fixpoint contains (a : Ascii.ascii) (s : string) : bool :=
  match s with
  | String b rest => if Ascii.eqb a b then true else contains a rest
  | EmptyString => false
  end.

Definition DEFAULT_CONFIG : string :=
  lstrip (text ["loaders:";
                "  - type: python";
                "processors:";
                "  - type: filter";
                "  - type: smart";
                "  - type: crossref";
                "renderer:";
                "  - type: markdown"]).

Definition DEFAULT_CONFIG_MKDOCS : string :=
  lstrip (text ["loaders:";
                "  - type: python";
                "processors:";
                "  - type: filter";
                "  - type: smart";
                "  - type: crossref";
                "renderer:";
                "  type: mkdocs";
                "  pages:";
                "    - title: Home";
                "      name: index";
                "      source: README.md";
                "    - title: API Documentation";
                "      contents:";
                "        - my_module.api.*";
                "  mkdocs_config:";
                "    theme: readthedocs"]).

(** What [yaml.safe_load] returns (numbers other than integers left out). *)
Inductive Yaml :=
| YNull
| YBool (b : bool)
| YInt (z : Z)
| YStr (s : string)
| YSeq (items : list Yaml)
| YMap (entries : list (Yaml * Yaml)).

(** The working directory, as [os.path] and [open] see it. *)
Inductive Node :=
| RegularFile (content : string)
| Directory.

(** [os.path.isfile(x)] *)
Definition isfile (fs : gmap string Node) (x : string) : bool :=
  match fs !! x with
  | Some (RegularFile _) => true
  | _ => false
  end.

(** [os.path.exists(x)] *)
Definition path_exists (fs : gmap string Node) (x : string) : bool :=
  bool_decide (is_Some (fs !! x)).

Inductive LogLevel := INFO | WARNING | ERROR.

(** What [cli] does to the outside. *)
Inductive Effect :=
| WriteFile (filename content : string)
| Print (line : string)
| BasicConfig (format : string) (level : LogLevel).

(** The arguments [click] passes to [cli]: an optional string, flags,
    tuples and the two switches that are [None] when not given. *)
Record Args := mkArgs {
  opt_config : option string;
  opt_bootstrap : bool;
  opt_bootstrap_mkdocs : bool;
  opt_verbose : bool;
  opt_quiet : bool;
  opt_modules : list string;
  opt_search_path : list string;
  opt_render_toc : option bool;
  opt_py2 : option bool;
  opt_watch_and_serve : bool;
  opt_open_browser : bool;
}.

(** [cli] either stops (it returned after a bootstrap, or exited, or
    raised) or goes on with the session
    [RenderSession(config, render_toc, search_path, modules, py2)], which
    it loads and then hands to [watch_and_serve] or to [render]. *)
Inductive CliResult :=
| Stopped (o : outcome)
| Proceed (config : Yaml) (render_toc : option bool) (search_path modules : list string)
    (py2 : option bool) (watch_and_serve open_browser : bool).

(** Truth values: of an optional string, of a tuple, of an optional
    switch. *)
Definition truthy_str (s : option string) : bool :=
  match s with
  | Some (String _ _) => true
  | _ => false
  end.

Definition nonempty {A} (l : list A) : bool :=
  match l with
  | [] => false
  | _ :: _ => true
  end.

Definition is_true (b : option bool) : bool :=
  match b with
  | Some true => true
  | _ => false
  end.

(** The configuration is given inline: [config.lstrip().startswith('{')
    or '\n' in config]. *)
Definition inline (c : string) : bool :=
  startswith (lstrip c) "{" || contains newline c.

(** [cli], up to the session it builds.  [fs] is the working directory and
    [safe_load] is [yaml.safe_load]; [open(filename, 'w')] raises on a
    directory.  A flag of [click] is never [None], so the logging is
    always configured. *)
Definition cli (fs : gmap string Node) (safe_load : string → completion Yaml)
    (a : Args) : list Effect * CliResult :=
  if opt_bootstrap a && opt_bootstrap_mkdocs a then
    ([], Stopped (error "--bootstrap and --bootstrap-mkdocs are incompatible options"))
  else if opt_bootstrap a || opt_bootstrap_mkdocs a then
    if truthy_str (opt_config a) || nonempty (opt_modules a)
       || nonempty (opt_search_path a) || is_true (opt_render_toc a)
       || is_true (opt_py2 a) || opt_watch_and_serve a || opt_open_browser a
    then ([], Stopped (error "--bootstrap must be used as a sole argument"))
    else
      let existing_file := List.find (isfile fs) config_filenames in
      if truthy_str existing_file
      then ([], Stopped (error ("file already exists: "
                                ++ repr (default "" existing_file))))
      else
        match config_filenames with
        | [] => ([], Stopped (Raised "IndexError"))
        | filename :: _ =>
            match fs !! filename with
            | Some Directory => ([], Stopped (Raised "IsADirectoryError"))
            | _ =>
                ([WriteFile filename
                    (if opt_bootstrap_mkdocs a then DEFAULT_CONFIG_MKDOCS
                     else DEFAULT_CONFIG);
                  Print ("created " ++ filename)],
                 Stopped Returned)
            end
        end
  else if opt_open_browser a && negb (opt_watch_and_serve a) then
    ([], Stopped (error "--open can only be used with --watch-and-serve"))
  else
    let load_implicit_config :=
      negb (nonempty (opt_modules a) || nonempty (opt_search_path a)
            || bool_decide (is_Some (opt_py2 a))) in
    let level :=
      if opt_verbose a then INFO else if opt_quiet a then ERROR else WARNING in
    let logging := [BasicConfig "%(message)s" level] in
    let loaded : completion Yaml :=
      match opt_config a with
      | None => Normal YNull
      | Some c =>
          if truthy_str (Some c) && inline c then safe_load c else Normal (YStr c)
      end in
    match loaded with
    | Throw x => (logging, Stopped (Raised x))
    | Normal config =>
        let proceed config :=
          (logging,
           Proceed config (opt_render_toc a) (opt_search_path a) (opt_modules a)
             (opt_py2 a) (opt_watch_and_serve a) (opt_open_browser a)) in
        match config with
        | YNull =>
            if load_implicit_config then
              match List.find (path_exists fs) config_filenames with
              | Some x => proceed (YStr x)
              | None => (logging, Stopped (error "config file not found."))
              end
            else proceed YNull
        | _ => proceed config
        end
    end.

(** The working directory after the effects. *)
Definition run_effects (fs : gmap string Node) (effects : list Effect)
  : gmap string Node :=
  foldl (λ fs e, match e with
                 | WriteFile filename content => <[filename := RegularFile content]> fs
                 | _ => fs
                 end) fs effects.

(** The arguments with the values dropped that the test for a sole
    argument takes for false. *)
Definition without_falsy (a : Args) : Args :=
  mkArgs (if truthy_str (opt_config a) then opt_config a else None)
    (opt_bootstrap a) (opt_bootstrap_mkdocs a) false false
    (opt_modules a) (opt_search_path a)
    (if is_true (opt_render_toc a) then Some true else None)
    (if is_true (opt_py2 a) then Some true else None)
    (opt_watch_and_serve a) (opt_open_browser a).

Definition set_opt_config (c : option string) (a : Args) : Args :=
  mkArgs c (opt_bootstrap a) (opt_bootstrap_mkdocs a) (opt_verbose a) (opt_quiet a)
    (opt_modules a) (opt_search_path a) (opt_render_toc a) (opt_py2 a)
    (opt_watch_and_serve a) (opt_open_browser a).

(** The invocation with one bootstrap flag and nothing else, and the
    invocation without any argument. *)
Definition bootstrap_args (mkdocs : bool) : Args :=
  mkArgs None (negb mkdocs) mkdocs false false [] [] None None false false.
Definition no_args : Args :=
  mkArgs None false false false false [] [] None None false false.

(** * Properties *)

(** ** Objects *)

Lemma type_setattr o k v : type_ (setattr o k v) = type_ o.
Proof. by destruct o. Qed.

Lemma fields_setattr o k v : __fields__ (setattr o k v) = __fields__ o.
Proof. by destruct o. Qed.

Lemma isinstance_setattr o k v base :
  isinstance (setattr o k v) base = isinstance o base.
Proof. by destruct o. Qed.

Lemma getattr_setattr_eq o k v : getattr (setattr o k v) k = Some v.
Proof. destruct o. apply lookup_insert_eq. Qed.

Lemma getattr_setattr_ne o k k' v :
  k ≠ k' → getattr (setattr o k v) k' = getattr o k'.
Proof. destruct o. intros. by apply lookup_insert_ne. Qed.

Lemma setattr_setattr_eq o k v w : setattr (setattr o k v) k w = setattr o k w.
Proof. destruct o. unfold setattr. simpl. by rewrite insert_insert_eq. Qed.

Lemma setattr_commute o k k' v w :
  k ≠ k' → setattr (setattr o k v) k' w = setattr (setattr o k' w) k v.
Proof. destruct o. unfold setattr. simpl. intros. by rewrite insert_insert_ne. Qed.

(** ** The loader overrides *)

Lemma isinstance_override_loader self l base :
  isinstance (override_loader self l) base = isinstance l base.
Proof.
  unfold override_loader.
  destruct (truthy (modules self)), (truthy (search_path self)), (py2 self);
    by rewrite ?isinstance_setattr.
Qed.

Lemma override_loader_idemp self l :
  override_loader self (override_loader self l) = override_loader self l.
Proof.
  unfold override_loader.
  destruct (truthy (modules self)), (truthy (search_path self)), (py2 self);
    try done;
    repeat first
      [ rewrite setattr_setattr_eq
      | rewrite (setattr_commute _ "print_function" "search_path") by done
      | rewrite (setattr_commute _ "print_function" "modules") by done
      | rewrite (setattr_commute _ "search_path" "modules") by done ];
    done.
Qed.

Lemma find_loader_None ls i :
  find_loader ls i = None ↔ ∀ l, l ∈ ls → isinstance l "PythonLoader" = false.
Proof.
  revert i. induction ls as [|l ls IH]; intros i; simpl.
  - split; [intros _ l Hl; by apply not_elem_of_nil in Hl | done].
  - destruct (isinstance l "PythonLoader") eqn:E.
    + split; [done | intros H]. specialize (H l (list_elem_of_here _ _)). congruence.
    + rewrite IH. split.
      * intros H l' [->|Hl']%elem_of_cons; auto.
      * intros H l' Hl'. apply H. by apply list_elem_of_further.
Qed.

(** The loader found is the first Python loader, and stays the one found
    when an object of the same classes takes its place. *)
Lemma find_loader_Some ls k i l :
  find_loader ls k = Some (i, l) →
  ∃ j, i = k + j ∧ ls !! j = Some l ∧ isinstance l "PythonLoader" = true ∧
       (∀ j' l', j' < j → ls !! j' = Some l' → isinstance l' "PythonLoader" = false) ∧
       ∀ l', isinstance l' "PythonLoader" = true →
             find_loader (<[j := l']> ls) k = Some (i, l').
Proof.
  revert k. induction ls as [|l0 ls IH]; intros k; simpl; [done|].
  destruct (isinstance l0 "PythonLoader") eqn:E.
  - intros [= <- <-]. exists 0. split_and!; [lia | done | done | lia |].
    intros l' Hl'. simpl. by rewrite Hl'.
  - intros (j & -> & Hj & Hl & Hbefore & Hput)%IH.
    exists (S j). split_and!; [lia | done | done | |].
    + intros [|j'] l' Hlt Hl'; simpl in Hl'; [congruence|].
      eapply Hbefore; [|done]. lia.
    + intros l' Hl'. simpl. rewrite E. by apply Hput.
Qed.

Lemma apply_loader_overrides_idemp self c :
  apply_loader_overrides self (fst (apply_loader_overrides self c))
  = apply_loader_overrides self c.
Proof.
  unfold apply_loader_overrides.
  destruct (truthy (modules self) || truthy (search_path self)
            || bool_decide (is_Some (py2 self))); simpl; [|done].
  destruct (find_loader (loaders c) 0) as [[i l]|] eqn:F; simpl.
  - apply find_loader_Some in F as (j & -> & Hj & Hl & _ & Hput). simpl in *.
    rewrite (Hput (override_loader self l))
      by by rewrite isinstance_override_loader.
    by rewrite override_loader_idemp, list_insert_insert_eq.
  - by rewrite F.
Qed.

Lemma apply_loader_overrides_renderer self c :
  renderer (fst (apply_loader_overrides self c)) = renderer c.
Proof.
  unfold apply_loader_overrides.
  by repeat case_match.
Qed.

Lemma apply_renderer_overrides_loaders self c :
  loaders (fst (apply_renderer_overrides self c)) = loaders c.
Proof.
  unfold apply_renderer_overrides.
  by repeat case_match.
Qed.

Lemma apply_renderer_overrides_idemp self c :
  apply_renderer_overrides self (fst (apply_renderer_overrides self c))
  = apply_renderer_overrides self c.
Proof.
  unfold apply_renderer_overrides.
  destruct (render_toc self) as [toc|]; [|done].
  destruct (List.find is_markdown_field (__fields__ (renderer c))) as [field|] eqn:F.
  - destruct (getattr (renderer c) (name field)) as [[| | |markdown]|] eqn:A;
      simpl; rewrite ?F, ?A; try done.
    rewrite getattr_setattr_eq.
    unfold set_renderer. simpl.
    by rewrite !setattr_setattr_eq.
  - destruct (isinstance (renderer c) "MarkdownRenderer") eqn:I;
      simpl; rewrite ?fields_setattr, ?F, ?isinstance_setattr, ?I; [|done].
    unfold set_renderer. simpl. by rewrite setattr_setattr_eq.
Qed.

(** ** C6 *)

(** C6: when the modules, the search path or the Python 2 switch is
    overridden and no configured loader is a Python loader (so in
    particular when there is no loader at all), applying the overrides
    fails with the error of the missing loader, and the configuration is
    the one that was passed in. *)
Theorem missing_python_loader_fails_unchanged self c :
  truthy (modules self) = true ∨ truthy (search_path self) = true ∨ is_Some (py2 self) →
  (∀ l, l ∈ loaders c → isinstance l "PythonLoader" = false) →
  _apply_overrides self c = (c, Exited "error: no python loader found" 1).
Proof.
  intros Hreq Hnone.
  unfold _apply_overrides, apply_loader_overrides.
  assert (truthy (modules self) || truthy (search_path self)
          || bool_decide (is_Some (py2 self)) = true) as ->.
  { destruct Hreq as [->| [->|H]]; [done | by rewrite orb_true_r |].
    rewrite (bool_decide_eq_true_2 _ H). by rewrite orb_true_r. }
  apply find_loader_None with (i := 0) in Hnone. by rewrite Hnone.
Qed.

Lemma missing_python_loader_witness :
  _apply_overrides (mkRenderSession ConfigNone None (Some ["src"]) (Some ["pkg.a"]) (Some true))
    no_loader_config
  = (no_loader_config, Exited "error: no python loader found" 1).
Proof.
  apply missing_python_loader_fails_unchanged.
  - left. reflexivity.
  - intros l Hl. simpl in Hl. by apply not_elem_of_nil in Hl.
Defined.

(** ** C10 *)

(** C10: when the modules and the search path of the session are empty or
    absent and the Python 2 switch is absent, the loader block is skipped:
    it returns without looking for a loader, the loaders of the
    configuration are unchanged whatever the rest does, the error of the
    missing loader is not raised (also without any loader), and the result
    is the one of the session with these three overrides absent. *)
Theorem empty_loader_overrides_are_absent self c :
  truthy (modules self) = false →
  truthy (search_path self) = false →
  py2 self = None →
  apply_loader_overrides self c = (c, Returned)
  ∧ loaders (fst (_apply_overrides self c)) = loaders c
  ∧ snd (_apply_overrides self c) ≠ Exited "error: no python loader found" 1
  ∧ _apply_overrides self c
    = _apply_overrides (mkRenderSession (config self) (render_toc self) None None None) c.
Proof.
  intros Hm Hs Hp.
  assert (apply_loader_overrides self c = (c, Returned)) as Hskip.
  { unfold apply_loader_overrides. by rewrite Hm, Hs, Hp. }
  unfold _apply_overrides. rewrite Hskip.
  split_and!; [done | apply apply_renderer_overrides_loaders | |].
  - unfold apply_renderer_overrides, error. by repeat case_match.
  - unfold apply_loader_overrides. simpl. done.
Qed.

Lemma empty_loader_overrides_witness :
  let self := mkRenderSession ConfigNone None (Some []) (Some []) None in
  apply_loader_overrides self no_loader_config = (no_loader_config, Returned)
  ∧ loaders (fst (_apply_overrides self no_loader_config)) = loaders no_loader_config
  ∧ snd (_apply_overrides self no_loader_config) ≠ Exited "error: no python loader found" 1
  ∧ _apply_overrides self no_loader_config
    = _apply_overrides (mkRenderSession ConfigNone None None None None) no_loader_config.
Proof.
  intros self.
  apply (empty_loader_overrides_are_absent self no_loader_config); reflexivity.
Defined.

(** ** C7 *)

(** C7: applying the overrides of a session to the configuration that a
    first application of them left behind changes nothing more and ends
    the same way: every override assigns its value. *)
Theorem apply_overrides_idempotent self c :
  _apply_overrides self (fst (_apply_overrides self c)) = _apply_overrides self c.
Proof.
  unfold _apply_overrides.
  destruct (apply_loader_overrides self c) as [c1 o1] eqn:H1.
  assert (apply_loader_overrides self c1 = (c1, o1)) as H1'.
  { pose proof (apply_loader_overrides_idemp self c) as Hi.
    rewrite H1 in Hi. simpl in Hi. rewrite Hi. done. }
  destruct o1; simpl; rewrite ?H1'; try done.
  destruct (apply_renderer_overrides self c1) as [c2 o2] eqn:H2. simpl.
  assert (apply_loader_overrides self c2 = (c2, Returned)) as H3.
  { pose proof (apply_renderer_overrides_loaders self c1) as Hl.
    rewrite H2 in Hl. simpl in Hl.
    clear H1 H2. unfold apply_loader_overrides in *. rewrite Hl.
    destruct (truthy (modules self) || truthy (search_path self)
              || bool_decide (is_Some (py2 self))); [|done].
    destruct (find_loader (loaders c1) 0) as [[i l]|]; [|done].
    injection H1' as H1'. apply (f_equal loaders) in H1'. simpl in H1'.
    rewrite H1', <- Hl. by destruct c2. }
  rewrite H3.
  pose proof (apply_renderer_overrides_idemp self c1) as Hi.
  by rewrite H2 in Hi.
Qed.

(** ** C5 *)

Lemma append_assoc (a b c : string) : (a ++ b) ++ c = a ++ b ++ c.
Proof.
  induction a as [|x a IH]; [done|].
  change (String x ((a ++ b) ++ c) = String x (a ++ b ++ c)). by rewrite IH.
Qed.

Lemma find_first {A} (f : A → bool) pre x post :
  Forall (λ y, f y = false) pre → f x = true →
  List.find f (pre ++ x :: post)%list = Some x.
Proof.
  intros Hpre Hx. induction Hpre as [|y pre Hy _ IH]; simpl.
  - by rewrite Hx.
  - by rewrite Hy.
Qed.

Lemma find_none {A} (f : A → bool) l :
  Forall (λ y, f y = false) l → List.find f l = None.
Proof. induction 1 as [|y l Hy _ IH]; simpl; [done | by rewrite Hy]. Qed.

(** The session that overrides one module and the table of contents, on a
    configuration whose renderer is no Markdown renderer and wraps none:
    the call ends with the error that names the renderer, but the modules
    of the loader are already overridden. *)
Lemma render_toc_failure_keeps_loader_override :
  let self := mkRenderSession ConfigNone (Some true) None (Some ["pkg.b"]) None in
  List.find is_markdown_field (__fields__ (renderer plain_config)) = None
  ∧ isinstance (renderer plain_config) "MarkdownRenderer" = false
  ∧ snd (_apply_overrides self plain_config)
    = Exited "error: renderer 'PlainRenderer' does not expose a MarkdownRenderer" 1
  ∧ fst (_apply_overrides self plain_config) ≠ plain_config.
Proof.
  split_and!; try reflexivity.
  intros H.
  apply (f_equal (λ c, (λ l, getattr l "modules") <$> loaders c !! 0)) in H.
  vm_compute in H. discriminate H.
Qed.

(** C5 (amended): with [render_toc] overridden and the loader block
    passed, (1) the first declared field whose struct class is a Markdown
    renderer decides: the object it holds gets the flag, nothing else of
    the renderer changes; (2) without such a field a renderer that is a
    Markdown renderer gets the flag itself; (3) otherwise the call ends
    with the error naming the class of the renderer, and the renderer is
    unchanged, the configuration being the one the loader block left. *)
Theorem render_toc_override_search self c toc c1 :
  render_toc self = Some toc →
  apply_loader_overrides self c = (c1, Returned) →
  (∀ pre field post markdown,
     __fields__ (renderer c) = (pre ++ field :: post)%list →
     Forall (λ f, is_markdown_field f = false) pre →
     is_markdown_field field = true →
     getattr (renderer c) (name field) = Some (VObj markdown) →
     ∃ r', _apply_overrides self c = (set_renderer c1 r', Returned)
       ∧ getattr r' (name field) = Some (VObj (setattr markdown "render_toc" (VBool toc)))
       ∧ (∀ k, k ≠ name field → getattr r' k = getattr (renderer c) k)
       ∧ type_ r' = type_ (renderer c))
  ∧ (Forall (λ f, is_markdown_field f = false) (__fields__ (renderer c)) →
     isinstance (renderer c) "MarkdownRenderer" = true →
     ∃ r', _apply_overrides self c = (set_renderer c1 r', Returned)
       ∧ getattr r' "render_toc" = Some (VBool toc)
       ∧ (∀ k, k ≠ "render_toc" → getattr r' k = getattr (renderer c) k)
       ∧ type_ r' = type_ (renderer c))
  ∧ (Forall (λ f, is_markdown_field f = false) (__fields__ (renderer c)) →
     isinstance (renderer c) "MarkdownRenderer" = false →
     _apply_overrides self c
     = (c1, Exited ("error: renderer '" ++ cls_name (type_ (renderer c))
                    ++ "' does not expose a MarkdownRenderer") 1)
     ∧ renderer c1 = renderer c).
Proof.
  intros Htoc Hload.
  assert (renderer c1 = renderer c) as Hr
    by (rewrite <- (apply_loader_overrides_renderer self c); by rewrite Hload).
  unfold _apply_overrides. rewrite Hload.
  unfold apply_renderer_overrides. rewrite Htoc, Hr.
  split_and!.
  - intros pre field post markdown Hfields Hpre Hfield Hattr.
    rewrite Hfields, (find_first _ _ _ _ Hpre Hfield), Hattr.
    eexists. split_and!; [done | apply getattr_setattr_eq | | apply type_setattr].
    intros k Hk. by apply getattr_setattr_ne.
  - intros Hnone Hmd. rewrite (find_none _ _ Hnone), Hmd.
    eexists. split_and!; [done | apply getattr_setattr_eq | | apply type_setattr].
    intros k Hk. by apply getattr_setattr_ne.
  - intros Hnone Hmd. rewrite (find_none _ _ Hnone), Hmd.
    split; [|done]. unfold error, repr.
    rewrite !append_assoc. reflexivity.
Qed.

Lemma render_toc_override_search_witness :
  let self := mkRenderSession ConfigNone (Some true) None None None in
  ∃ r', _apply_overrides self mkdocs_config = (set_renderer mkdocs_config r', Returned)
    ∧ getattr r' "markdown" = Some (VObj (setattr a_markdown "render_toc" (VBool true)))
    ∧ (∀ k, k ≠ "markdown" → getattr r' k = getattr a_mkdocs k)
    ∧ type_ r' = MkdocsRenderer.
Proof.
  intros self.
  destruct (render_toc_override_search self mkdocs_config true mkdocs_config
              eq_refl eq_refl) as (Hfield & _ & _).
  apply (Hfield [mkField "output_directory" OtherType]
           (mkField "markdown" (StructType MarkdownRenderer)) [] a_markdown);
    [reflexivity | | reflexivity | reflexivity].
  repeat constructor.
Defined.

(** ** C4 *)

(** C4: a run of [render] that returns was given the configuration object
    (a string has no stage methods), and the returned list holds, without
    repetition, exactly the file names of the modules of the graph.  The
    [config] of the session does not enter: its file name is returned only
    when a module of the graph is located in that file. *)
Theorem render_returns_module_files self arg st c files :
  render self arg st = Normal (c, files) →
  (∃ c0, arg = ArgConfig c0 ∧ c = set_graph_modules c0 (graph_after st))
  ∧ NoDup files
  ∧ (∀ f, f ∈ files ↔ ∃ m, m ∈ graph_after st ∧ location_filename m = f)
  ∧ (∀ path, config self = ConfigStr path →
       (path ∈ files ↔ ∃ m, m ∈ graph_after st ∧ location_filename m = path)).
Proof.
  unfold render, run_stages.
  destruct arg as [s|c0]; [done|].
  destruct (load_modules_raises st); [done|].
  destruct (process_raises st); [done|].
  destruct (render_raises st); [done|].
  intros [= <- <-].
  assert (∀ f, f ∈ elements (list_to_set (C := gset string)
                 (module_filenames (set_graph_modules c0 (graph_after st))))
               ↔ ∃ m, m ∈ graph_after st ∧ location_filename m = f) as Hmem.
  { intros f. rewrite elem_of_elements, elem_of_list_to_set.
    unfold module_filenames. simpl. rewrite list_elem_of_fmap.
    split; [intros (m & -> & Hm) | intros (m & Hm & <-)]; by exists m. }
  split_and!; [by eexists | apply NoDup_elements | done | by intros path _].
Qed.

(** The session was built from the configuration file
    [pydoc-markdown.yml]; the watch set of a run over three modules in two
    files holds the two files and not the configuration file. *)
Lemma render_omits_config_file :
  config file_session = ConfigStr "pydoc-markdown.yml"
  ∧ render file_session (ArgConfig markdown_config) good_stages
    = Normal (set_graph_modules markdown_config (graph_after good_stages), two_files)
  ∧ ("pydoc-markdown.yml" ∉ two_files)
  ∧ (∀ f, f ∈ two_files ↔ ∃ m, m ∈ graph_after good_stages ∧ location_filename m = f).
Proof.
  assert (render file_session (ArgConfig markdown_config) good_stages
          = Normal (set_graph_modules markdown_config (graph_after good_stages),
                    two_files)) as Hrun by (vm_compute; reflexivity).
  destruct (render_returns_module_files _ _ _ _ _ Hrun) as (_ & _ & Hmem & _).
  split_and!; [reflexivity | exact Hrun | | exact Hmem].
  unfold two_files. rewrite !elem_of_cons, elem_of_nil. intros [?|[?|[]]]; done.
Defined.

(** ** C8 *)

(** C8: when the renderer of the configuration is no [MkdocsRenderer],
    [watch_and_serve] ends at once with the error of the unsupported
    renderer: nothing was rendered, watched or started, whatever the
    environment would have done. *)
Theorem watch_and_serve_needs_mkdocs self c open_browser sched :
  isinstance (renderer c) "MkdocsRenderer" = false →
  ∃ s, watch_and_serve self c open_browser sched
       = (s, Exited ("error: --watch-and-serve can only be used in combination with the "
                     ++ dq ++ "mkdocs" ++ dq ++ " renderer.") 1)
    ∧ trace s = []
    ∧ observer s = None ∧ event s = None ∧ process s = None.
Proof.
  intros H. unfold watch_and_serve. rewrite H. simpl.
  by eexists.
Qed.

Lemma watch_and_serve_needs_mkdocs_witness :
  ∃ s, watch_and_serve file_session markdown_config true [pass 0 1; pass 0 0]
       = (s, Exited ("error: --watch-and-serve can only be used in combination with the "
                     ++ dq ++ "mkdocs" ++ dq ++ " renderer.") 1)
    ∧ trace s = []
    ∧ observer s = None ∧ event s = None ∧ process s = None.
Proof.
  apply watch_and_serve_needs_mkdocs. reflexivity.
Defined.

(** ** Traces *)

Lemma snoc_split {A} (t t1 t2 : list A) a b :
  (t ++ [a] = t1 ++ b :: t2)%list →
  (t2 = [] ∧ t = t1 ∧ a = b) ∨ ∃ t2', t2 = (t2' ++ [a])%list ∧ t = (t1 ++ b :: t2')%list.
Proof.
  destruct t2 as [|x t2' _] using rev_ind; intros H.
  - left. apply app_inj_tail in H as [-> ->]. done.
  - right. exists t2'.
    change (t1 ++ b :: t2' ++ [x])%list with (t1 ++ (b :: t2') ++ [x])%list in H.
    rewrite app_assoc in H. apply app_inj_tail in H as [-> ->]. done.
Qed.

Lemma last_watch_snoc t a :
  last_watch (t ++ [a]) = match a with Watch o _ => Some o | _ => last_watch t end.
Proof. unfold last_watch. by rewrite foldl_app. Qed.

Lemma served_snoc t a :
  served (t ++ [a]) = match a with Serve p => Some p | _ => served t end.
Proof. unfold served. by rewrite foldl_app. Qed.

Lemma serves_snoc t a :
  serves (t ++ [a]) = serves t + (if is_Serve a then 1 else 0).
Proof.
  unfold serves. rewrite List.filter_app, length_app. simpl.
  by destruct (is_Serve a).
Qed.

Lemma renders_snoc t a :
  renders (t ++ [a]) = renders t + (if is_Render a then 1 else 0).
Proof.
  unfold renders. rewrite List.filter_app, length_app. simpl.
  by destruct (is_Render a).
Qed.

Lemma rendered_snoc t a : rendered t → rendered (t ++ [a]).
Proof. intros [fs H]. exists fs. apply elem_of_app. by left. Qed.

Lemma rendered_here t fs : rendered (t ++ [Render (Some fs)]).
Proof. exists fs. apply elem_of_app. right. apply list_elem_of_singleton. done. Qed.

Lemma loop_inv_initial : loop_inv None None [].
Proof.
  split; try done.
  - intros p H. by apply not_elem_of_nil in H.
  - intros p H. by apply not_elem_of_nil in H.
  - intros t1 o fs t2 H. by destruct t1.
  - intros t1 p t2 H. by destruct t1.
Qed.

Lemma loop_inv_plain obs proc t a :
  plain a = true → loop_inv obs proc t → loop_inv obs proc (t ++ [a]).
Proof.
  intros Ha [Ho Hp Hnt Hsp Hs Hw Hr]. split.
  - rewrite last_watch_snoc. by destruct a.
  - rewrite served_snoc. by destruct a.
  - intros p [H|H%list_elem_of_singleton]%elem_of_app; [by eapply Hnt|].
    by subst a.
  - intros p [H|H%list_elem_of_singleton]%elem_of_app; [by apply Hsp|].
    by subst a.
  - rewrite serves_snoc, Hs. destruct a; simpl; try done; lia.
  - intros t1 o fs t2 [(-> & -> & ->)|(t2' & -> & ->)]%snoc_split; [done|].
    destruct (Hw _ _ _ _ eq_refl) as [H|H]; [left | by right].
    apply elem_of_app. by left.
  - intros t1 p t2 [(-> & -> & ->)|(t2' & -> & ->)]%snoc_split; [done|].
    by eapply Hr.
Qed.

Lemma all_stopped_none proc t : loop_inv None proc t → all_stopped t.
Proof.
  intros H t1 o fs t2 Ht. by destruct (inv_watch _ _ _ H _ _ _ _ Ht).
Qed.

Lemma all_stopped_stop o proc t : loop_inv (Some o) proc t → all_stopped (t ++ [Stop o]).
Proof.
  intros H t1 o' fs t2 [(-> & -> & ?)|(t2' & -> & ->)]%snoc_split; [done|].
  apply elem_of_app.
  destruct (inv_watch _ _ _ H _ _ _ _ eq_refl) as [?|[= ->]]; [by left|].
  right. by apply list_elem_of_singleton.
Qed.

Lemma loop_inv_watch obs proc t h fs :
  loop_inv obs proc t → all_stopped t → loop_inv (Some h) proc (t ++ [Watch h fs]).
Proof.
  intros [Ho Hp Hnt Hsp Hs Hw Hr] Hall. split.
  - by rewrite last_watch_snoc.
  - by rewrite served_snoc.
  - intros p [H|H%list_elem_of_singleton]%elem_of_app; [by eapply Hnt|done].
  - intros p [H|H%list_elem_of_singleton]%elem_of_app; [by apply Hsp|done].
  - rewrite serves_snoc, Hs. simpl. lia.
  - intros t1 o fs' t2 [(-> & -> & [= -> ->])|(t2' & -> & ->)]%snoc_split;
      [by right|].
    left. apply elem_of_app. left. by eapply Hall.
  - intros t1 p t2 [(-> & -> & ?)|(t2' & -> & ->)]%snoc_split; [done|].
    by eapply Hr.
Qed.

Lemma loop_inv_serve obs t h :
  loop_inv obs None t → rendered t → loop_inv obs (Some h) (t ++ [Serve h]).
Proof.
  intros [Ho Hp Hnt Hsp Hs Hw Hr] Hrend. split.
  - by rewrite last_watch_snoc.
  - by rewrite served_snoc.
  - intros p [H|H%list_elem_of_singleton]%elem_of_app; [by eapply Hnt|done].
  - intros p [H|H%list_elem_of_singleton]%elem_of_app; [|by injection H as ->].
    by apply Hsp in H.
  - rewrite serves_snoc, Hs. done.
  - intros t1 o fs t2 [(-> & -> & ?)|(t2' & -> & ->)]%snoc_split; [done|].
    destruct (Hw _ _ _ _ eq_refl) as [H|H]; [left | by right].
    apply elem_of_app. by left.
  - intros t1 p t2 [(-> & -> & ?)|(t2' & -> & ->)]%snoc_split; [done|].
    by eapply Hr.
Qed.

(** ** Rules of the program logic *)

Lemma triple_ret {A} (a : A) (P : LoopState → Prop) Q R :
  (∀ s, P s → Q a s) → triple P (mret a) Q R.
Proof. intros H s Hs. by apply H. Qed.

Lemma triple_raise {A} x (P : LoopState → Prop) (Q : A → LoopState → Prop) R :
  (∀ s, P s → R s) → triple P (raise x) Q R.
Proof. intros H s Hs. by apply H. Qed.

Lemma triple_read {A} (f : LoopState → A) (P : LoopState → Prop) Q R :
  (∀ s, P s → Q (f s) s) → triple P (read f) Q R.
Proof. intros H s Hs. by apply H. Qed.

Lemma triple_modify f (P : LoopState → Prop) Q R :
  (∀ s, P s → Q tt (f s)) → triple P (modify f) Q R.
Proof. intros H s Hs. by apply H. Qed.

Lemma triple_bind {A B} (m : M A) (k : A → M B) P Q' Q R :
  triple P m Q' R → (∀ a, triple (Q' a) (k a) Q R) → triple P (m ≫= k) Q R.
Proof.
  intros Hm Hk s Hs. specialize (Hm s Hs).
  unfold mbind, M_bind. destruct (m s) as [s' [a|x]]; [by apply Hk | done].
Qed.

(** ** The invariant of the loop *)

Lemma change_signal_idemp s : change_signal (change_signal s) = change_signal s.
Proof.
  destruct s as [cfg obs [i|] proc wf fl nh tr]; [|done].
  unfold change_signal. simpl. by rewrite insert_insert_eq.
Qed.

(** Any number of change signals leaves the state one signal leaves. *)
Lemma signals_coalesce n s :
  Nat.iter n change_signal s = match n with 0 => s | S _ => change_signal s end.
Proof.
  induction n as [|n IH]; [done|]. simpl. rewrite IH.
  destruct n; [done | apply change_signal_idemp].
Qed.

Lemma signals_frame n s :
  let s' := Nat.iter n change_signal s in
  pydocmd s' = pydocmd s ∧ observer s' = observer s ∧ event s' = event s
  ∧ process s' = process s ∧ watch_files s' = watch_files s
  ∧ next_handle s' = next_handle s ∧ trace s' = trace s.
Proof.
  simpl. rewrite signals_coalesce. destruct n; [done|].
  unfold change_signal. destruct (event s) eqn:E; simpl; by split_and!.
Qed.

Lemma J_signals n s : J (Nat.iter n change_signal s) ↔ J s.
Proof.
  destruct (signals_frame n s) as (_ & Ho & _ & Hp & _ & _ & Ht).
  unfold J. by rewrite Ho, Hp, Ht.
Qed.

Lemma J_plain a s : plain a = true → J s → J (do_action a s).
Proof. intros Ha Hs. by apply loop_inv_plain. Qed.

Lemma J_all_stopped s : J s → observer s = None → all_stopped (trace s).
Proof. unfold J. intros H E. rewrite E in H. by eapply all_stopped_none. Qed.

Lemma triple_call_render self st :
  triple J (call_render self st) (λ _ s, J s ∧ rendered (trace s)) J.
Proof.
  intros s Hs. unfold call_render.
  destruct (render self (ArgConfig (pydocmd s)) st) as [[c files]|x].
  - split; [by apply (loop_inv_plain _ _ _ (Render (Some files))) | apply rendered_here].
  - by apply J_plain.
Qed.

Lemma triple_call_watch_paths e :
  triple (λ s, J s ∧ rendered (trace s) ∧ all_stopped (trace s))
    (call_watch_paths e)
    (λ _ s, J s ∧ rendered (trace s)) J.
Proof.
  intros s (HJ & Hr & Ha). unfold call_watch_paths.
  destruct (watch_paths_raises e); [done|].
  split; [by eapply loop_inv_watch | by apply rendered_snoc].
Qed.

Lemma triple_call_mkdocs_serve e :
  triple (λ s, J s ∧ process s = None ∧ rendered (trace s))
    (call_mkdocs_serve e)
    (λ _ s, J s ∧ process s ≠ None) J.
Proof.
  intros s (HJ & Hp & Hr). unfold call_mkdocs_serve.
  destruct (mkdocs_serve_raises e); [done|].
  split; [|done]. unfold J in *. simpl. rewrite Hp in HJ. by apply loop_inv_serve.
Qed.

Lemma triple_call_webbrowser_open e :
  triple (λ s, J s ∧ process s ≠ None)
    (call_webbrowser_open e)
    (λ _ s, J s ∧ process s ≠ None) J.
Proof.
  unfold call_webbrowser_open. destruct (webbrowser_raises e) as [x|].
  - apply triple_raise. by intros s [? _].
  - apply triple_modify. intros s [? ?]. split; [by apply J_plain | done].
Qed.

Lemma triple_call_event_wait e :
  triple (λ s, J s ∧ process s ≠ None)
    (call_event_wait e)
    (λ _ s, J s ∧ process s ≠ None) J.
Proof.
  unfold call_event_wait.
  eapply triple_bind with (Q' := λ _ s, J s ∧ process s ≠ None).
  { apply triple_read. done. }
  intros [i|]; [|apply triple_raise; by intros s [? _]].
  eapply triple_bind with (Q' := λ _ s, J s ∧ process s ≠ None).
  { apply triple_modify. intros s [? ?]. split; [by apply J_plain | done]. }
  intros ?.
  eapply triple_bind with (Q' := λ _ s, J s ∧ process s ≠ None).
  { apply triple_modify. intros s [? ?]. split; [by apply J_signals|].
    by destruct (signals_frame (changes_in_wait e) s) as (_ & _ & _ & -> & _). }
  intros ?.
  destruct (wait_raises e) as [x|]; [apply triple_raise; by intros s [? _] | by apply triple_ret].
Qed.

(** One pass keeps the invariant, however it ends, and a pass that ends
    normally leaves a process running. *)
Lemma triple_loop_body self open_browser e :
  triple (λ s, J s ∧ B s) (loop_body self open_browser e)
    (λ _ s, J s ∧ process s ≠ None) J.
Proof.
  unfold loop_body.
  eapply triple_bind with (Q' := λ ev s, J s ∧ B s ∧ ev = event s).
  { apply triple_read. by intros s [? ?]. }
  intros ev.
  eapply triple_bind
    with (Q' := λ ch s, J s ∧ B s ∧ ev = event s ∧ (ch = false → ev ≠ None)).
  { apply triple_read. intros s (? & ? & ?). split_and!; try done. by destruct ev. }
  intros ch.
  eapply triple_bind
    with (Q' := λ _ s, J s ∧ (process s = None → rendered (trace s))).
  { destruct ch.
    - eapply triple_bind with (Q' := λ _ s, J s).
      { apply triple_modify. intros s (? & _). by apply J_plain. }
      intros ?. eapply triple_bind with (Q' := λ _ s, J s).
      { apply triple_modify. intros s ?. by apply J_signals. }
      intros ?. eapply triple_bind; [apply triple_call_render|].
      intros ?.
      eapply triple_bind
        with (Q' := λ obs s, J s ∧ rendered (trace s) ∧ obs = observer s).
      { apply triple_read. by intros s [? ?]. }
      intros obs.
      eapply triple_bind
        with (Q' := λ _ s, J s ∧ rendered (trace s) ∧ all_stopped (trace s)).
      { destruct obs as [o|].
        - apply triple_modify. intros s (HJ & Hr & Ho).
          split_and!; [by apply J_plain | by apply rendered_snoc |].
          unfold J in HJ. rewrite <- Ho in HJ. by eapply all_stopped_stop.
        - apply triple_ret. intros s (HJ & Hr & Ho).
          split_and!; [done | done | by apply J_all_stopped]. }
      intros ?. intros s Hs. pose proof (triple_call_watch_paths e s Hs) as H.
      destruct (call_watch_paths e s) as [s' [[]|x]]; [|done].
      by destruct H.
    - apply triple_ret. intros s (HJ & HB & -> & Hev). split; [done|].
      intros Hp. destruct (Hev eq_refl). by apply HB. }
  intros ?.
  eapply triple_bind
    with (Q' := λ p s, J s ∧ (process s = None → rendered (trace s)) ∧ p = process s).
  { apply triple_read. by intros s [? ?]. }
  intros p.
  eapply triple_bind with (Q' := λ _ s, J s ∧ process s ≠ None).
  { destruct p as [p|].
    - apply triple_ret. intros s (? & _ & Hp). split; [done|]. by rewrite <- Hp.
    - eapply triple_bind
        with (Q' := λ _ s, J s ∧ process s = None ∧ rendered (trace s)).
      { apply triple_modify. intros s (HJ & Hr & Hp).
        split_and!; [by apply J_plain | done | apply rendered_snoc; by apply Hr]. }
      intros ?. eapply triple_bind; [apply triple_call_mkdocs_serve|].
      intros ?. destruct open_browser; [apply triple_call_webbrowser_open|].
      by apply triple_ret. }
  intros ?. apply triple_call_event_wait.
Qed.

(** ** The loop as a whole *)

Lemma while_true_app self open_browser pre post s :
  while_true self open_browser (pre ++ post) s
  = match while_true self open_browser pre s with
    | (s', Normal _) => while_true self open_browser post s'
    | (s', Throw x) => (s', Throw x)
    end.
Proof.
  revert s. induction pre as [|e pre IH]; intros s; simpl; [done|].
  unfold mbind, M_bind. destruct (loop_body self open_browser e s) as [s' [[]|x]]; [|done].
  apply IH.
Qed.

Lemma triple_while_true self open_browser sched :
  triple (λ s, J s ∧ B s) (while_true self open_browser sched) (λ _ s, J s ∧ B s) J.
Proof.
  induction sched as [|e sched IH]; simpl.
  - by apply triple_ret.
  - eapply triple_bind; [apply triple_loop_body|].
    intros ? s [HJ Hp]. apply IH. split; [done|]. by intros ?.
Qed.

Lemma J_initial c : J (initial c) ∧ B (initial c).
Proof. split; [apply loop_inv_initial | done]. Qed.

(** The three ways [watch_and_serve] can end on a schedule. *)
Lemma watch_and_serve_cases self c open_browser sched :
  (isinstance (renderer c) "MkdocsRenderer" = false
   ∧ ∃ msg, watch_and_serve self c open_browser sched = (initial c, Exited msg 1))
  ∨ (isinstance (renderer c) "MkdocsRenderer" = true
     ∧ ∃ s, while_true self open_browser sched (initial c) = (s, Normal tt)
          ∧ watch_and_serve self c open_browser sched = (s, Running)
          ∧ J s ∧ B s)
  ∨ (isinstance (renderer c) "MkdocsRenderer" = true
     ∧ ∃ s x, while_true self open_browser sched (initial c) = (s, Throw x)
          ∧ watch_and_serve self c open_browser sched = (finally_block s, Raised x)
          ∧ J s).
Proof.
  unfold watch_and_serve.
  destruct (isinstance (renderer c) "MkdocsRenderer"); simpl; [|left; eauto].
  right.
  pose proof (triple_while_true self open_browser sched _ (J_initial c)) as H.
  destruct (while_true self open_browser sched (initial c)) as [s [[]|x]].
  - left. split; [done|]. exists s. by destruct H.
  - right. split; [done|]. by exists s, x.
Qed.

Lemma finally_block_actions s :
  trace (finally_block s)
  = (trace s ++ (match observer s with Some o => [Stop o] | None => [] end)
             ++ (match process s with Some p => [Terminate p] | None => [] end))%list.
Proof.
  unfold finally_block.
  destruct (observer s) as [o|], (process s) as [p|] eqn:E; simpl; rewrite ?E; simpl;
    by rewrite <- ?app_assoc, ?app_nil_r.
Qed.

Lemma finally_block_trace s :
  J s → trace (finally_block s) = (trace s ++ cleanup (trace s))%list.
Proof.
  intros HJ. rewrite finally_block_actions. unfold cleanup.
  by rewrite <- (inv_observer _ _ _ HJ), <- (inv_process _ _ _ HJ).
Qed.

Lemma served_Some t p : served t = Some p → Serve p ∈ t.
Proof.
  induction t as [|a t IH] using rev_ind; [done|].
  rewrite served_snoc, elem_of_app, list_elem_of_singleton.
  destruct a; auto. intros [= ->]. by right.
Qed.

Lemma all_stopped_snoc t a :
  all_stopped t → (∀ o fs, a ≠ Watch o fs) → all_stopped (t ++ [a]).
Proof.
  intros H Ha t1 o fs t2 [(-> & -> & ->)|(t2' & -> & ->)]%snoc_split.
  - by destruct (Ha o fs).
  - apply elem_of_app. left. by eapply H.
Qed.

Lemma cleanup_all_stopped obs proc t :
  loop_inv obs proc t → all_stopped (t ++ cleanup t).
Proof.
  intros H. unfold cleanup. rewrite <- (inv_observer _ _ _ H), <- (inv_process _ _ _ H).
  assert (all_stopped (t ++ match obs with Some o => [Stop o] | None => [] end)) as Hs.
  { destruct obs; [by eapply all_stopped_stop|].
    rewrite app_nil_r. by eapply all_stopped_none. }
  destruct proc; rewrite ?app_nil_r; [|done].
  rewrite app_assoc. by apply all_stopped_snoc.
Qed.

(** ** C3 *)

(** C3: when [watch_and_serve] ends by an exception raised in the loop
    (a stage, a collaborator or an interrupt of the wait), the actions are
    those of the loop, none of them a termination request, followed by the
    [finally] block once: a stop of the installed observer if there is
    one, then a termination request to the process if one was started.  So
    every registration made is stopped afterwards, a started process gets
    exactly one termination request, as the last action, and without a
    started process none is sent. *)
Theorem cleanup_on_exit self c open_browser sched s x :
  watch_and_serve self c open_browser sched = (s, Raised x) →
  (∃ t, trace s = (t ++ cleanup t)%list ∧ ∀ p, Terminate p ∉ t)
  ∧ all_stopped (trace s)
  ∧ (∀ p, Serve p ∈ trace s →
       ∃ t1, trace s = (t1 ++ [Terminate p])%list ∧ ∀ q, Terminate q ∉ t1)
  ∧ ((∀ p, Serve p ∉ trace s) → ∀ q, Terminate q ∉ trace s).
Proof.
  intros Hrun.
  destruct (watch_and_serve_cases self c open_browser sched)
    as [(_ & msg & H)|[(_ & s0 & _ & H & _)|(_ & s0 & x0 & _ & H & HJ)]];
    rewrite H in Hrun; try done.
  injection Hrun as <- <-.
  rewrite (finally_block_trace _ HJ).
  pose proof HJ as [Ho Hp Hnt Hsp Hs Hw Hr].
  assert (∀ q, Terminate q ∉
            (trace s0 ++ match last_watch (trace s0) with
                         | Some o => [Stop o] | None => [] end)%list) as Hnt'.
  { intros q [H'|H']%elem_of_app; [by eapply Hnt|].
    destruct (last_watch (trace s0)); [by apply list_elem_of_singleton in H'|].
    by apply not_elem_of_nil in H'. }
  split_and!.
  - by exists (trace s0).
  - by eapply cleanup_all_stopped.
  - intros p Hin.
    assert (Serve p ∈ trace s0) as Hin0.
    { apply elem_of_app in Hin as [?|Hin]; [done|]. unfold cleanup in Hin.
      destruct (last_watch (trace s0)), (served (trace s0)); simpl in Hin;
        repeat (apply elem_of_cons in Hin as [?|Hin]; [done|]);
        by apply not_elem_of_nil in Hin. }
    apply Hsp in Hin0. unfold cleanup. rewrite <- Hp, Hin0, app_assoc. eauto.
  - intros Hnone q. unfold cleanup.
    destruct (served (trace s0)) as [p|] eqn:E.
    + apply served_Some in E. destruct (Hnone p). apply elem_of_app. by left.
    + rewrite app_assoc, app_nil_r. apply Hnt'.
Qed.

Lemma cleanup_on_exit_witness :
  let s := fst (watch_and_serve file_session mkdocs_config true
                  [pass 0 1; pass 2 0; interrupted_pass]) in
  (∃ t, trace s = (t ++ cleanup t)%list ∧ ∀ p, Terminate p ∉ t)
  ∧ all_stopped (trace s)
  ∧ (∀ p, Serve p ∈ trace s →
       ∃ t1, trace s = (t1 ++ [Terminate p])%list ∧ ∀ q, Terminate q ∉ t1)
  ∧ ((∀ p, Serve p ∉ trace s) → ∀ q, Terminate q ∉ trace s).
Proof.
  intros s.
  apply (cleanup_on_exit file_session mkdocs_config true
           [pass 0 1; pass 2 0; interrupted_pass] s "KeyboardInterrupt").
  vm_compute. reflexivity.
Defined.

(** ** C9 *)

(** C9: on every schedule, whatever way [watch_and_serve] ends or however
    far it has come, at most one process was started; it was started after
    a call of [self.render] had returned; and a termination request is the
    last action of a call that ended by an exception, sent to the process
    started before: while the loop executes no process is terminated or
    started a second time. *)
Theorem at_most_one_process self c open_browser sched :
  let r := watch_and_serve self c open_browser sched in
  (serves (trace (fst r)) ≤ 1)%nat
  ∧ (∀ t1 p t2, trace (fst r) = (t1 ++ Serve p :: t2)%list → rendered t1)
  ∧ (∀ t1 p t2, trace (fst r) = (t1 ++ Terminate p :: t2)%list →
       t2 = [] ∧ Serve p ∈ t1 ∧ ∃ x, snd r = Raised x)
  ∧ (snd r = Running → ∀ p, Terminate p ∉ trace (fst r)).
Proof.
  simpl.
  destruct (watch_and_serve_cases self c open_browser sched)
    as [(_ & msg & ->)|[(_ & s & _ & -> & HJ & _)|(_ & s & x & _ & -> & HJ)]]; simpl.
  - split_and!; [unfold serves; simpl; lia | | | done];
      intros t1 p t2 H; by destruct t1.
  - pose proof HJ as [Ho Hp Hnt Hsp Hs Hw Hr].
    split_and!.
    + rewrite Hs. destruct (process s); lia.
    + done.
    + intros t1 p t2 H. destruct (Hnt p). rewrite H.
      apply elem_of_app. right. apply list_elem_of_here.
    + done.
  - pose proof HJ as [Ho Hp Hnt Hsp Hs Hw Hr].
    rewrite (finally_block_trace _ HJ). unfold cleanup. rewrite <- Ho, <- Hp.
    set (stop := match observer s with Some o => [Stop o] | None => [] end).
    assert (∀ q, Terminate q ∉ (trace s ++ stop)%list) as Hnt'.
    { intros q [H'|H']%elem_of_app; [by eapply Hnt|]. unfold stop in H'.
      destruct (observer s); [by apply list_elem_of_singleton in H'|].
      by apply not_elem_of_nil in H'. }
    assert (∀ t1 p t2, (trace s ++ stop)%list = (t1 ++ Serve p :: t2)%list → rendered t1)
      as Hr'.
    { unfold stop. destruct (observer s); [|by rewrite app_nil_r].
      intros t1 p t2 [(_ & _ & ?)|(t2' & -> & H')]%snoc_split; [done|]. by eapply Hr. }
    assert (serves (trace s ++ stop) ≤ 1)%nat as Hs'.
    { unfold stop. destruct (observer s); rewrite ?app_nil_r, ?serves_snoc; simpl;
        rewrite Hs; destruct (process s); lia. }
    rewrite app_assoc.
    destruct (process s) as [p0|] eqn:E; rewrite ?app_nil_r.
    + split_and!; [rewrite serves_snoc; simpl; lia | | | done].
      * intros t1 p t2 [(_ & _ & ?)|(t2' & -> & H')]%snoc_split; [done|]. by eapply Hr'.
      * intros t1 p t2 [(-> & <- & [= <-])|(t2' & -> & H')]%snoc_split.
        -- split_and!; [done | | by exists x].
           apply elem_of_app. left. apply served_Some. by rewrite <- Hp.
        -- destruct (Hnt' p). rewrite H'. apply elem_of_app. right. apply list_elem_of_here.
    + split_and!; [done | done | | done].
      intros t1 p t2 H'. destruct (Hnt' p). rewrite H'.
      apply elem_of_app. right. apply list_elem_of_here.
Qed.

(** ** C1 *)

Lemma loop_body_stage_failure self open_browser e s x :
  renders_now s = true →
  run_stages (ArgConfig (pydocmd s)) (stages e) = Throw x →
  ∃ s', loop_body self open_browser e s = (s', Throw x)
      ∧ observer s' = observer s ∧ process s' = process s
      ∧ trace s' = (trace s ++ [Log "Rendering."; Render None])%list.
Proof.
  intros Hc Hx. unfold renders_now in Hc.
  unfold loop_body, mbind, M_bind, read. simpl. rewrite Hc.
  unfold logger_info, emit, modify, change_signals, call_render. simpl.
  destruct (signals_frame (changes_in_render e) (do_action (Log "Rendering.") s))
    as (Hcfg & Ho & _ & Hp & _ & _ & Ht).
  rewrite Hcfg. simpl. unfold render. rewrite Hx.
  eexists. split; [done|]. simpl. rewrite Ho, Hp, Ht. simpl.
  by rewrite <- app_assoc.
Qed.

(** The schedule [pass 0 1; failing_pass; pass 0 0]: the second pass
    renders, its process stage raises, and the call ends there with the
    exception; the third pass is never made. *)
Lemma stage_failure_stops_the_loop :
  let r := watch_and_serve file_session mkdocs_config false
             [pass 0 1; failing_pass; pass 0 0] in
  process_raises (stages failing_pass) = Some "ValueError"
  ∧ snd r = Raised "ValueError"
  ∧ snd r ≠ Running
  ∧ trace (fst r)
    = [Log "Rendering."; Render (Some two_files); Watch 0 two_files;
       Log "Starting MkDocs serve."; Serve 1; Wait 0;
       Log "Rendering."; Render None; Stop 0; Terminate 1].
Proof.
  split_and!; [reflexivity | vm_compute; reflexivity | vm_compute; discriminate
              | vm_compute; reflexivity].
Qed.

(** C1 (amended): when the loop has come through the passes [pre] and the
    next pass renders with a stage that raises, [watch_and_serve] ends with
    that exception whatever the environment would do afterwards: after the
    failed render come only the actions of the [finally] block, which
    stops the installed observer and terminates the started process. *)
Theorem stage_failure_ends_loop self c open_browser pre e post s x :
  watch_and_serve self c open_browser pre = (s, Running) →
  renders_now s = true →
  run_stages (ArgConfig (pydocmd s)) (stages e) = Throw x →
  ∃ s', watch_and_serve self c open_browser (pre ++ e :: post) = (s', Raised x)
      ∧ trace s'
        = (trace s ++ [Log "Rendering."; Render None] ++ cleanup (trace s))%list.
Proof.
  intros Hpre Hc Hx.
  destruct (watch_and_serve_cases self c open_browser pre)
    as [(_ & msg & H)|[(Hmk & s0 & Hw & H & HJ & _)|(_ & s0 & x0 & _ & H & _)]];
    rewrite H in Hpre; try done.
  injection Hpre as ->.
  destruct (loop_body_stage_failure self open_browser e s x Hc Hx)
    as (s1 & Hbody & Ho & Hp & Ht).
  exists (finally_block s1). split.
  - unfold watch_and_serve. rewrite Hmk. simpl.
    rewrite while_true_app, Hw. simpl. unfold mbind, M_bind. by rewrite Hbody.
  - rewrite finally_block_actions, Ho, Hp, Ht. unfold cleanup.
    rewrite <- (inv_observer _ _ _ HJ), <- (inv_process _ _ _ HJ).
    by rewrite <- app_assoc.
Qed.

Lemma stage_failure_ends_loop_witness :
  ∃ s', watch_and_serve file_session mkdocs_config false
          ([pass 0 1] ++ failing_pass :: [pass 0 0]) = (s', Raised "ValueError")
      ∧ trace s'
        = (trace (fst (watch_and_serve file_session mkdocs_config false [pass 0 1]))
           ++ [Log "Rendering."; Render None]
           ++ cleanup (trace (fst (watch_and_serve file_session mkdocs_config false
                                     [pass 0 1]))))%list.
Proof.
  apply (stage_failure_ends_loop file_session mkdocs_config false
           [pass 0 1] failing_pass [pass 0 0]
           (fst (watch_and_serve file_session mkdocs_config false [pass 0 1]))
           "ValueError").
  - vm_compute. reflexivity.
  - vm_compute. reflexivity.
  - vm_compute. reflexivity.
Defined.

(** ** C2 *)

(** Signals on an event that is set, or without a registration, change
    nothing. *)
Lemma signals_noop n s : renders_now s = true → Nat.iter n change_signal s = s.
Proof.
  intros H. rewrite signals_coalesce. destruct n; [done|].
  destruct s as [cfg obs [i|] proc wf fl nh tr]; [|done].
  unfold renders_now, is_set, change_signal in *. simpl in *.
  destruct (fl !! i) as [[]|] eqn:E; try done.
  by rewrite insert_id.
Qed.

Lemma loop_body_render_signals self open_browser n e s :
  loop_body self open_browser (set_changes_in_render n e) s
  = loop_body self open_browser e s.
Proof.
  unfold loop_body, mbind, M_bind, read. simpl.
  destruct (match event s with None => true | Some i => is_set s i end) eqn:Hc; [|done].
  unfold logger_info, emit, modify, change_signals. simpl.
  by rewrite !signals_noop.
Qed.

Lemma while_true_render_signals self open_browser sched s :
  while_true self open_browser (set_changes_in_render 0 <$> sched) s
  = while_true self open_browser sched s.
Proof.
  revert s. induction sched as [|e sched IH]; intros s; simpl; [done|].
  unfold mbind, M_bind. rewrite loop_body_render_signals.
  destruct (loop_body self open_browser e s) as [s' [[]|x]]; [apply IH | done].
Qed.

Lemma triple_True {A} (m : M A) : triple (λ _, True) m (λ _ _, True) (λ _, True).
Proof. intros s _. by destruct (m s) as [s' [a|x]]. Qed.

(** A pass that ends normally after a change signal in its wait leaves the
    event set. *)
Lemma triple_wait_signalled self open_browser e :
  (1 ≤ changes_in_wait e)%nat →
  triple (λ _, True) (loop_body self open_browser e)
    (λ _ s, ∃ i, event s = Some i ∧ flags s !! i = Some true) (λ _, True).
Proof.
  intros Hn. unfold loop_body.
  do 5 (eapply triple_bind; [apply triple_True|]; intros ?).
  intros s _. unfold call_event_wait, mbind, M_bind, read, emit, modify, change_signals.
  destruct (event s) as [i|] eqn:E; [|done]. simpl.
  rewrite signals_coalesce. destruct (changes_in_wait e); [lia|].
  unfold change_signal. simpl. rewrite E.
  destruct (wait_raises e); [done|]. simpl.
  exists i. by rewrite lookup_insert_eq.
Qed.

(** A pass with the event set and a process running: one render, a new
    registration with its event not set, the process untouched. *)
Lemma loop_body_signalled self open_browser e s i p :
  event s = Some i → flags s !! i = Some true → process s = Some p →
  quiet e →
  ∃ s', loop_body self open_browser e s = (s', Normal tt)
      ∧ renders (trace s') = renders (trace s) + 1
      ∧ process s' = Some p
      ∧ ∃ h, event s' = Some h ∧ flags s' !! h = Some false.
Proof.
  intros Hev Hfl Hp [(Hl & Hpr & Hr & Hw & _ & _ & Hwt) Hn].
  destruct s as [cfg obs ev proc wf fl nh tr]. simpl in *. subst ev proc.
  unfold loop_body, mbind, M_bind, read, is_set. simpl. rewrite Hfl. simpl.
  unfold logger_info, emit, modify, change_signals. simpl.
  rewrite signals_noop by (unfold renders_now, is_set; simpl; by rewrite Hfl).
  unfold call_render, render, run_stages. simpl. rewrite Hl, Hpr, Hr. simpl.
  unfold call_watch_paths, observer_stop, call_event_wait, mbind, M_bind, read, emit,
    modify, change_signals.
  destruct obs as [o|]; simpl; rewrite Hw; simpl; rewrite Hn, Hwt; simpl;
    (eexists; split_and!;
       [done | unfold do_action; simpl; rewrite !renders_snoc; simpl; lia | done
       | eexists; split; [done | apply lookup_insert_eq]]).
Qed.

(** A pass with the event not set and a process running only waits. *)
Lemma loop_body_unsignalled self open_browser e s h p :
  event s = Some h → flags s !! h = Some false → process s = Some p →
  quiet e →
  loop_body self open_browser e s = (do_action (Wait h) s, Normal tt).
Proof.
  intros Hev Hfl Hp [(_ & _ & _ & _ & _ & _ & Hwt) Hn].
  destruct s as [cfg obs ev proc wf fl nh tr]. simpl in *. subst ev proc.
  unfold loop_body, mbind, M_bind, read, is_set. simpl. rewrite Hfl. simpl.
  unfold call_event_wait, mbind, M_bind, read, emit, modify, change_signals. simpl.
  by rewrite Hn, Hwt.
Qed.

Lemma while_true_unsignalled self open_browser es s h p :
  event s = Some h → flags s !! h = Some false → process s = Some p →
  Forall quiet es →
  ∃ s', while_true self open_browser es s = (s', Normal tt)
      ∧ renders (trace s') = renders (trace s).
Proof.
  intros Hev Hfl Hp Hq. revert s Hev Hfl Hp.
  induction Hq as [|e es He _ IH]; intros s Hev Hfl Hp; simpl; [by eexists|].
  unfold mbind, M_bind.
  rewrite (loop_body_unsignalled _ _ _ _ _ _ Hev Hfl Hp He).
  destruct (IH (do_action (Wait h) s) Hev Hfl Hp) as (s' & -> & Hr).
  exists s'. split; [done|]. rewrite Hr. simpl. rewrite renders_snoc. simpl. lia.
Qed.

(** The schedule [pass 0 1; pass 3 0; pass 0 0; pass 0 0]: the second
    pass renders, and three change signals arrive during that render; the
    two passes after it do not render. *)
Lemma signals_during_render_are_dropped :
  let before := watch_and_serve file_session mkdocs_config false [pass 0 1; pass 3 0] in
  let after := watch_and_serve file_session mkdocs_config false
                 [pass 0 1; pass 3 0; pass 0 0; pass 0 0] in
  changes_in_render (pass 3 0) = 3
  ∧ renders (trace (fst before)) = 2
  ∧ snd after = Running
  ∧ renders (trace (fst after)) = renders (trace (fst before))
  ∧ renders (trace (fst after)) ≠ renders (trace (fst before)) + 1.
Proof.
  split_and!; [reflexivity | vm_compute; reflexivity | vm_compute; reflexivity
              | vm_compute; reflexivity | vm_compute; lia].
Qed.

(** C2 (amended): change signals that arrive while a render is in flight
    trigger no render: the run is the one without them.  Change signals
    that arrive while the loop waits are coalesced: after a pass whose
    wait received one or more of them, the quiet passes that follow, as
    many as there are, make exactly one render. *)
Theorem change_signals_coalesce self c open_browser :
  (∀ sched,
     watch_and_serve self c open_browser (set_changes_in_render 0 <$> sched)
     = watch_and_serve self c open_browser sched)
  ∧ (∀ pre e es s,
       watch_and_serve self c open_browser (pre ++ [e]) = (s, Running) →
       (1 ≤ changes_in_wait e)%nat →
       es ≠ [] → Forall quiet es →
       ∃ s', watch_and_serve self c open_browser ((pre ++ [e]) ++ es) = (s', Running)
           ∧ renders (trace s') = renders (trace s) + 1).
Proof.
  split.
  - intros sched. unfold watch_and_serve. by rewrite while_true_render_signals.
  - intros pre e es s Hrun Hn Hes Hq.
    destruct (watch_and_serve_cases self c open_browser (pre ++ [e]))
      as [(_ & msg & H)|[(Hmk & s0 & Hw & H & _ & _)|(_ & s0 & x0 & _ & H & _)]];
      rewrite H in Hrun; try done.
    injection Hrun as ->.
    assert (∃ i p, event s = Some i ∧ flags s !! i = Some true ∧ process s = Some p)
      as (i & p & Hev & Hfl & Hp).
    { rewrite while_true_app in Hw.
      destruct (watch_and_serve_cases self c open_browser pre)
        as [(E & _)|[(_ & s1 & Hw1 & _ & HJ1 & HB1)|(_ & s1 & x1 & Hw1 & _)]];
        [congruence | | by rewrite Hw1 in Hw].
      rewrite Hw1 in Hw. simpl in Hw. unfold mbind, M_bind in Hw.
      pose proof (triple_wait_signalled self open_browser e Hn s1 I) as H1.
      pose proof (triple_loop_body self open_browser e s1 (conj HJ1 HB1)) as H2.
      destruct (loop_body self open_browser e s1) as [s2 [[]|x]]; [|done].
      injection Hw as ->. destruct H1 as (i & ? & ?), H2 as [_ H2].
      destruct (process s) as [p|]; [|done]. by exists i, p. }
    destruct Hq as [|e2 es He2 Hq]; [done|].
    destruct (loop_body_signalled self open_browser e2 s i p Hev Hfl Hp He2)
      as (s2 & Hb2 & Hr2 & Hp2 & h & Hev2 & Hfl2).
    destruct (while_true_unsignalled self open_browser es s2 h p Hev2 Hfl2 Hp2 Hq)
      as (s3 & Hw3 & Hr3).
    exists s3. split; [|by rewrite Hr3, Hr2].
    unfold watch_and_serve. rewrite Hmk. simpl.
    rewrite while_true_app, Hw. simpl. unfold mbind, M_bind. by rewrite Hb2, Hw3.
Qed.

Lemma change_signals_coalesce_witness :
  ∃ s', watch_and_serve file_session mkdocs_config false
          (([pass 0 0] ++ [pass 0 5]) ++ [pass 2 0; pass 0 0; pass 1 0]) = (s', Running)
      ∧ renders (trace s')
        = renders (trace (fst (watch_and_serve file_session mkdocs_config false
                                 ([pass 0 0] ++ [pass 0 5])))) + 1.
Proof.
  destruct (change_signals_coalesce file_session mkdocs_config false) as [_ H].
  apply (H [pass 0 0] (pass 0 5) [pass 2 0; pass 0 0; pass 1 0]).
  - vm_compute. reflexivity.
  - simpl. lia.
  - discriminate.
  - repeat constructor.
Defined.

(** * Further properties *)

(** ** What the overrides touch *)

Lemma find_loader_first ls k j l :
  ls !! j = Some l →
  isinstance l "PythonLoader" = true →
  (∀ j' l', j' < j → ls !! j' = Some l' → isinstance l' "PythonLoader" = false) →
  find_loader ls k = Some (k + j, l).
Proof.
  revert k j. induction ls as [|l0 ls IH]; intros k j Hj Hl Hbefore; [done|].
  destruct j as [|j]; simpl in *.
  - injection Hj as ->. rewrite Hl. do 2 f_equal. lia.
  - rewrite (Hbefore 0 l0) by (done || lia).
    rewrite (IH (S k) j Hj Hl).
    + do 2 f_equal. lia.
    + intros j' l' Hlt Hl'. apply (Hbefore (S j') l'); [lia | done].
Qed.

Lemma override_loader_type self l : type_ (override_loader self l) = type_ l.
Proof.
  unfold override_loader.
  destruct (truthy (modules self)), (truthy (search_path self)), (py2 self);
    by rewrite ?type_setattr.
Qed.

Lemma override_loader_fields self l : __fields__ (override_loader self l) = __fields__ l.
Proof.
  unfold override_loader.
  destruct (truthy (modules self)), (truthy (search_path self)), (py2 self);
    by rewrite ?fields_setattr.
Qed.

Lemma override_loader_modules self l :
  getattr (override_loader self l) "modules"
  = if truthy (modules self) then Some (strs (modules self)) else getattr l "modules".
Proof.
  unfold override_loader.
  destruct (truthy (modules self)), (truthy (search_path self)), (py2 self);
    rewrite ?(getattr_setattr_ne _ "print_function" "modules") by done;
    rewrite ?(getattr_setattr_ne _ "search_path" "modules") by done;
    by rewrite ?getattr_setattr_eq.
Qed.

Lemma override_loader_search_path self l :
  getattr (override_loader self l) "search_path"
  = if truthy (search_path self) then Some (strs (search_path self))
    else getattr l "search_path".
Proof.
  unfold override_loader.
  destruct (truthy (modules self)), (truthy (search_path self)), (py2 self);
    rewrite ?(getattr_setattr_ne _ "print_function" "search_path") by done;
    rewrite ?getattr_setattr_eq;
    by rewrite ?(getattr_setattr_ne _ "modules" "search_path") by done.
Qed.

Lemma override_loader_print_function self l :
  getattr (override_loader self l) "print_function"
  = match py2 self with
    | Some b => Some (VBool (negb b))
    | None => getattr l "print_function"
    end.
Proof.
  unfold override_loader.
  destruct (truthy (modules self)), (truthy (search_path self)), (py2 self);
    rewrite ?getattr_setattr_eq;
    rewrite ?(getattr_setattr_ne _ "search_path" "print_function") by done;
    by rewrite ?(getattr_setattr_ne _ "modules" "print_function") by done.
Qed.

Lemma override_loader_other self l k :
  k ≠ "modules" → k ≠ "search_path" → k ≠ "print_function" →
  getattr (override_loader self l) k = getattr l k.
Proof.
  intros H1 H2 H3. unfold override_loader.
  destruct (truthy (modules self)), (truthy (search_path self)), (py2 self);
    by rewrite ?getattr_setattr_ne by done.
Qed.

(** The configuration the call leaves is the one the loader block left,
    with the renderer the renderer block left. *)
Lemma apply_overrides_parts self c :
  loaders (fst (_apply_overrides self c)) = loaders (fst (apply_loader_overrides self c))
  ∧ processors (fst (_apply_overrides self c)) = processors c
  ∧ graph_modules (fst (_apply_overrides self c)) = graph_modules c.
Proof.
  unfold _apply_overrides.
  assert (processors (fst (apply_loader_overrides self c)) = processors c
          ∧ graph_modules (fst (apply_loader_overrides self c)) = graph_modules c)
    as [Hp Hg].
  { unfold apply_loader_overrides. by repeat case_match. }
  destruct (apply_loader_overrides self c) as [c1 o1]. simpl in *.
  assert (loaders (fst (apply_renderer_overrides self c1)) = loaders c1
          ∧ processors (fst (apply_renderer_overrides self c1)) = processors c1
          ∧ graph_modules (fst (apply_renderer_overrides self c1)) = graph_modules c1)
    as (Hl' & Hp' & Hg').
  { unfold apply_renderer_overrides. by repeat case_match. }
  destruct o1; simpl; try done. by rewrite Hl', Hp', Hg', Hp, Hg.
Qed.

(** X1: whatever the session and however the call ends, applying the
    overrides never touches the processors or the graph, keeps the number
    of loaders, and leaves alone every loader that is no Python loader or
    comes after a Python loader; the loader it does write to keeps its
    class, its declared fields and every attribute other than [modules],
    [search_path] and [print_function]. *)
Theorem apply_overrides_frame self c :
  let c' := fst (_apply_overrides self c) in
  processors c' = processors c
  ∧ graph_modules c' = graph_modules c
  ∧ length (loaders c') = length (loaders c)
  ∧ (∀ j l, loaders c !! j = Some l →
       isinstance l "PythonLoader" = false
       ∨ (∃ j' l', j' < j ∧ loaders c !! j' = Some l'
                   ∧ isinstance l' "PythonLoader" = true) →
       loaders c' !! j = Some l)
  ∧ (∀ j l, loaders c !! j = Some l →
       ∃ l', loaders c' !! j = Some l'
         ∧ type_ l' = type_ l ∧ __fields__ l' = __fields__ l
         ∧ ∀ k, k ≠ "modules" → k ≠ "search_path" → k ≠ "print_function" →
                getattr l' k = getattr l k).
Proof.
  simpl. destruct (apply_overrides_parts self c) as (-> & -> & ->).
  unfold apply_loader_overrides.
  destruct (truthy (modules self) || truthy (search_path self)
            || bool_decide (is_Some (py2 self))); simpl; [|by eauto 10].
  destruct (find_loader (loaders c) 0) as [[i l0]|] eqn:F; simpl; [|by eauto 10].
  apply find_loader_Some in F as (j0 & -> & Hj0 & Hl0 & Hbefore & _). simpl.
  split_and!; [done | done | apply length_insert | |].
  - intros j l Hj Hother.
    destruct (decide (j0 = j)) as [->|Hne]; [|by rewrite list_lookup_insert_ne].
    rewrite Hj0 in Hj. injection Hj as ->.
    destruct Hother as [H|(j' & l' & Hlt & Hj' & Hl')]; [congruence|].
    rewrite (Hbefore j' l' Hlt Hj') in Hl'. done.
  - intros j l Hj.
    destruct (decide (j0 = j)) as [->|Hne].
    + rewrite Hj0 in Hj. injection Hj as ->.
      exists (override_loader self l).
      rewrite list_lookup_insert_eq by (by eapply lookup_lt_Some).
      split_and!; [done | apply override_loader_type | apply override_loader_fields |].
      intros k ???. by apply override_loader_other.
    + exists l. by rewrite list_lookup_insert_ne.
Qed.

(** X2: when the configuration has a Python loader, the first one holds
    after the call, however the renderer block ends, the modules and the
    search path of the session where these are not empty, and
    [print_function] is the negation of [py2] where that is given; what
    the session does not override is as before. *)
Theorem loader_override_values self c j l :
  loaders c !! j = Some l →
  isinstance l "PythonLoader" = true →
  (∀ j' l', j' < j → loaders c !! j' = Some l' → isinstance l' "PythonLoader" = false) →
  ∃ l', loaders (fst (_apply_overrides self c)) !! j = Some l'
    ∧ getattr l' "modules"
      = (if truthy (modules self) then Some (strs (modules self)) else getattr l "modules")
    ∧ getattr l' "search_path"
      = (if truthy (search_path self) then Some (strs (search_path self))
         else getattr l "search_path")
    ∧ getattr l' "print_function"
      = match py2 self with
        | Some b => Some (VBool (negb b))
        | None => getattr l "print_function"
        end.
Proof.
  intros Hj Hl Hbefore.
  destruct (apply_overrides_parts self c) as (-> & _ & _).
  pose proof (find_loader_first _ 0 _ _ Hj Hl Hbefore) as F. simpl in F.
  unfold apply_loader_overrides. rewrite F.
  destruct (truthy (modules self) || truthy (search_path self)
            || bool_decide (is_Some (py2 self))) eqn:G; simpl.
  - exists (override_loader self l).
    rewrite list_lookup_insert_eq by (by eapply lookup_lt_Some).
    split_and!; [done | apply override_loader_modules
                | apply override_loader_search_path | apply override_loader_print_function].
  - exists l. apply orb_false_elim in G as [[-> ->]%orb_false_elim G].
    apply bool_decide_eq_false in G. destruct (py2 self); [|done].
    destruct G. by eexists.
Qed.

Lemma loader_override_values_witness :
  ∃ l', loaders (fst (_apply_overrides
                        (mkRenderSession ConfigNone (Some true) None (Some ["pkg.b"]) (Some true))
                        plain_config)) !! 0 = Some l'
    ∧ getattr l' "modules" = Some (VStrs ["pkg.b"])
    ∧ getattr l' "search_path" = getattr a_loader "search_path"
    ∧ getattr l' "print_function" = Some (VBool false).
Proof.
  apply (loader_override_values
           (mkRenderSession ConfigNone (Some true) None (Some ["pkg.b"]) (Some true))
           plain_config 0 a_loader); [reflexivity | reflexivity | lia].
Defined.

(** X3: the call returns exactly when the loader block and the renderer
    block both find what they need: no loader override is requested or
    some loader is a Python loader; and [render_toc] is not given, or the
    first declared Markdown field holds an object, or there is no such
    field and the renderer is a Markdown renderer. *)
Theorem apply_overrides_returns_iff self c :
  snd (_apply_overrides self c) = Returned ↔
    ((truthy (modules self) = false ∧ truthy (search_path self) = false ∧ py2 self = None)
     ∨ ∃ l, l ∈ loaders c ∧ isinstance l "PythonLoader" = true)
    ∧ (render_toc self = None
       ∨ (∃ field markdown,
            List.find is_markdown_field (__fields__ (renderer c)) = Some field
            ∧ getattr (renderer c) (name field) = Some (VObj markdown))
       ∨ (List.find is_markdown_field (__fields__ (renderer c)) = None
          ∧ isinstance (renderer c) "MarkdownRenderer" = true)).
Proof.
  unfold _apply_overrides.
  pose proof (apply_loader_overrides_renderer self c) as Hr.
  assert (snd (apply_loader_overrides self c) = Returned ↔
            (truthy (modules self) = false ∧ truthy (search_path self) = false
             ∧ py2 self = None)
            ∨ ∃ l, l ∈ loaders c ∧ isinstance l "PythonLoader" = true) as Hload.
  { unfold apply_loader_overrides.
    destruct (truthy (modules self) || truthy (search_path self)
              || bool_decide (is_Some (py2 self))) eqn:G; simpl.
    - destruct (find_loader (loaders c) 0) as [[i l]|] eqn:F; simpl.
      + split; [intros _; right | done].
        apply find_loader_Some in F as (j & _ & Hj & Hl & _).
        exists l. split; [by eapply list_elem_of_lookup_2 | done].
      + split; [done|]. rewrite find_loader_None in F.
        intros [(Hm & Hs & Hp)|(l & Hin & Hl)].
        * rewrite Hm, Hs, Hp in G. done.
        * rewrite (F l Hin) in Hl. done.
    - split; [intros _; left | done].
      apply orb_false_elim in G as [[-> ->]%orb_false_elim G].
      apply bool_decide_eq_false in G. destruct (py2 self); [|done].
      destruct G. by eexists. }
  destruct (apply_loader_overrides self c) as [c1 o1]. simpl in *. subst.
  assert (snd (apply_renderer_overrides self c1) = Returned ↔
            render_toc self = None
            ∨ (∃ field markdown,
                 List.find is_markdown_field (__fields__ (renderer c)) = Some field
                 ∧ getattr (renderer c) (name field) = Some (VObj markdown))
            ∨ (List.find is_markdown_field (__fields__ (renderer c)) = None
               ∧ isinstance (renderer c) "MarkdownRenderer" = true)) as Hrend.
  { unfold apply_renderer_overrides. rewrite Hr.
    destruct (render_toc self); [|split; [intros _; by left | done]].
    destruct (List.find is_markdown_field (__fields__ (renderer c))) as [field|].
    - destruct (getattr (renderer c) (name field)) as [[| | |markdown]|] eqn:A; simpl;
        (split; [try done; intros _; right; left; by eexists _, _|]);
        intros [?|[(f & m & [= <-] & ?)|[? _]]]; congruence.
    - destruct (isinstance (renderer c) "MarkdownRenderer"); simpl.
      + split; [intros _; by right; right | done].
      + split; [done|]. intros [?|[(f & m & ? & ?)|[_ ?]]]; done. }
  destruct o1; simpl.
  - rewrite Hrend. rewrite <- Hload. by split; [|intros [_ ?]].
  - split; [done|]. intros [H _]. by apply Hload in H.
  - split; [done|]. intros [H _]. by apply Hload in H.
  - split; [done|]. intros [H _]. by apply Hload in H.
Qed.

(** ** The exceptions of the loop *)

(** A pass ends by an exception only when the environment raises it: the
    event is never [None] when the loop waits on it. *)
Lemma loop_body_throws self open_browser e s s' x :
  loop_body self open_browser e s = (s', Throw x) → raises e x.
Proof.
  unfold loop_body, call_event_wait, call_render, call_watch_paths, call_mkdocs_serve,
    call_webbrowser_open, observer_stop, logger_info, change_signals, emit, modify,
    read, raise, render, run_stages, mbind, M_bind, mret, M_ret, raises.
  intros H.
  repeat (first [ progress simpl in H | case_match ]; simplify_eq).
  all: by eauto 10.
Qed.

Lemma peaceful_raises e x : peaceful e → raises e x → False.
Proof.
  intros (H1 & H2 & H3 & H4 & H5 & H6 & H7) [H|[H|[H|[H|[H|[H|H]]]]]]; congruence.
Qed.

Lemma while_true_throws self open_browser sched s s' x :
  while_true self open_browser sched s = (s', Throw x) →
  ∃ e, e ∈ sched ∧ raises e x.
Proof.
  revert s. induction sched as [|e sched IH]; intros s; simpl; [done|].
  unfold mbind, M_bind.
  destruct (loop_body self open_browser e s) as [s1 [[]|y]] eqn:Hb.
  - intros (e' & Hin & Hx)%IH. exists e'. split; [by apply list_elem_of_further | done].
  - intros [= -> ->]. exists e. split; [apply list_elem_of_here|].
    by eapply loop_body_throws.
Qed.

(** X4: [watch_and_serve] ends by an exception only when a call of the
    environment raised it in one of the passes; as long as nothing raises,
    the loop with a [MkdocsRenderer] keeps executing. *)
Theorem loop_exits_by_environment self c open_browser sched :
  (∀ x, snd (watch_and_serve self c open_browser sched) = Raised x →
        ∃ e, e ∈ sched ∧ raises e x)
  ∧ (isinstance (renderer c) "MkdocsRenderer" = true →
     Forall peaceful sched →
     snd (watch_and_serve self c open_browser sched) = Running).
Proof.
  unfold watch_and_serve.
  destruct (isinstance (renderer c) "MkdocsRenderer"); simpl; [|done].
  destruct (while_true self open_browser sched (initial c)) as [s [[]|y]] eqn:Hw; simpl.
  - done.
  - apply while_true_throws in Hw as (e & Hin & Hy). split.
    + intros x [= <-]. by exists e.
    + intros _ Hall. rewrite Forall_forall in Hall.
      destruct (peaceful_raises e y); auto.
Qed.

(** ** The renders of a run *)


Lemma renders_now_flag s i f :
  event s = Some i → flags s !! i = Some f → renders_now s = f.
Proof. intros Hev Hfl. unfold renders_now, is_set. by rewrite Hev, Hfl. Qed.

(** A pass in which nothing raises: it renders when the event is set or
    missing, and leaves the event set when a signal arrived in its wait. *)
Lemma triple_pass_renders self open_browser e k b :
  peaceful e →
  triple (λ s, renders (trace s) = k ∧ flagged s ∧ renders_now s = b)
    (loop_body self open_browser e)
    (λ _ s, renders (trace s) = k + (if b then 1 else 0) ∧ flagged s
            ∧ renders_now s = Nat.leb 1 (changes_in_wait e))
    (λ _, True).
Proof.
  intros (Hl & Hpr & Hr & Hw & Hms & Hwb & Hwt).
  set (Q3 := λ s : LoopState,
         renders (trace s) = k + (if b then 1 else 0)
         ∧ ∃ h, event s = Some h ∧ flags s !! h = Some false).
  unfold loop_body.
  eapply triple_bind
    with (Q' := λ ev s, renders (trace s) = k ∧ flagged s ∧ renders_now s = b
                        ∧ ev = event s).
  { apply triple_read. by intros s (? & ? & ?). }
  intros ev.
  eapply triple_bind
    with (Q' := λ ch s, renders (trace s) = k ∧ flagged s ∧ ch = b ∧ ev = event s
                        ∧ renders_now s = b).
  { apply triple_read. intros s (? & ? & Hb & ->). by rewrite <- Hb. }
  intros ch.
  eapply triple_bind with (Q' := λ _ s, Q3 s).
  { destruct ch.
    - eapply triple_bind with (Q' := λ _ s, renders (trace s) = k ∧ b = true).
      { apply triple_modify. intros s (Hk & _ & <- & _). split; [|done].
        simpl. by rewrite renders_snoc, Hk, Nat.add_0_r. }
      intros ?. eapply triple_bind with (Q' := λ _ s, renders (trace s) = k ∧ b = true).
      { apply triple_modify. intros s [Hk ?]. split; [|done].
        by destruct (signals_frame (changes_in_render e) s) as (_ & _ & _ & _ & _ & _ & ->). }
      intros ?.
      eapply triple_bind with (Q' := λ _ s, renders (trace s) = k + 1 ∧ b = true).
      { intros s [Hk ?]. unfold call_render, render, run_stages.
        rewrite Hl, Hpr, Hr. simpl. split; [|done]. by rewrite renders_snoc, Hk. }
      intros ?.
      eapply triple_bind with (Q' := λ _ s, renders (trace s) = k + 1 ∧ b = true).
      { apply triple_read. done. }
      intros obs.
      eapply triple_bind with (Q' := λ _ s, renders (trace s) = k + 1 ∧ b = true).
      { destruct obs; [|by apply triple_ret].
        apply triple_modify. intros s [Hk ?]. split; [|done].
        simpl. by rewrite renders_snoc, Hk, Nat.add_0_r. }
      intros ?. intros s [Hk ->]. unfold call_watch_paths, Q3. rewrite Hw. simpl.
      split; [by rewrite renders_snoc, Hk, Nat.add_0_r|].
      eexists. split; [done | apply lookup_insert_eq].
    - apply triple_ret. intros s (Hk & Hf & <- & -> & Hn). unfold Q3.
      split; [by rewrite Nat.add_0_r|].
      unfold flagged, renders_now, is_set in *.
      destruct (event s) as [i|]; [|done]. exists i. split; [done|].
      destruct Hf as [f Hf]. rewrite Hf in Hn |- *. simpl in Hn. by subst. }
  intros ?.
  eapply triple_bind with (Q' := λ _ s, Q3 s).
  { apply triple_read. done. }
  intros p.
  eapply triple_bind with (Q' := λ _ s, Q3 s).
  { destruct p; [by apply triple_ret|].
    eapply triple_bind with (Q' := λ _ s, Q3 s).
    { apply triple_modify. intros s [Hk Hh]. unfold Q3. simpl. split; [|done].
      by rewrite renders_snoc, Hk, Nat.add_0_r. }
    intros ?. eapply triple_bind with (Q' := λ _ s, Q3 s).
    { intros s [Hk Hh]. unfold call_mkdocs_serve, Q3. rewrite Hms. simpl.
      split; [|done]. by rewrite renders_snoc, Hk, Nat.add_0_r. }
    intros ?. destruct open_browser; [|by apply triple_ret].
    unfold call_webbrowser_open. rewrite Hwb.
    apply triple_modify. intros s [Hk Hh]. unfold Q3. simpl. split; [|done].
    by rewrite renders_snoc, Hk, Nat.add_0_r. }
  intros ?.
  intros s (Hk & h & Hev & Hfl).
  unfold call_event_wait, mbind, M_bind, read, emit, modify, change_signals.
  rewrite Hev, Hwt. simpl.
  rewrite signals_coalesce.
  destruct (changes_in_wait e) as [|n]; simpl.
  - split_and!; [by rewrite renders_snoc, Hk, Nat.add_0_r | |].
    + unfold flagged. simpl. rewrite ?Hev. by eexists.
    + by apply (renders_now_flag _ h).
  - unfold change_signal. simpl. rewrite Hev. simpl.
    split_and!; [by rewrite renders_snoc, Hk, Nat.add_0_r | |].
    + unfold flagged. simpl. rewrite ?Hev. rewrite lookup_insert_eq. by eexists.
    + apply (renders_now_flag _ h); [done|]. simpl. apply lookup_insert_eq.
Qed.

Lemma while_true_renders self open_browser sched s :
  Forall peaceful sched → flagged s →
  ∃ s', while_true self open_browser sched s = (s', Normal tt)
      ∧ renders (trace s') = renders (trace s) + expected_renders (renders_now s) sched.
Proof.
  intros Hall. revert s. induction Hall as [|e sched He _ IH]; intros s Hf; simpl.
  - exists s. split; [done | by rewrite Nat.add_0_r].
  - unfold mbind, M_bind.
    pose proof (triple_pass_renders self open_browser e _ _ He s
                  (conj eq_refl (conj Hf eq_refl))) as H.
    destruct (loop_body self open_browser e s) as [s1 [[]|x]] eqn:Hb.
    + destruct H as (Hk & Hf1 & Hn1).
      destruct (IH s1 Hf1) as (s' & -> & Hk').
      exists s'. split; [done|]. rewrite Hk', Hk, Hn1. by rewrite Nat.add_assoc.
    + destruct (peaceful_raises e x He). by eapply loop_body_throws.
Qed.

(** X5: as long as nothing raises, the loop with a [MkdocsRenderer]
    renders in its first pass and after that in exactly the passes that
    follow a wait in which a change signal arrived, however many signals
    arrived in that wait or during a render. *)
Theorem renders_of_a_run self c open_browser sched :
  isinstance (renderer c) "MkdocsRenderer" = true →
  Forall peaceful sched →
  renders (trace (fst (watch_and_serve self c open_browser sched)))
  = expected_renders true sched.
Proof.
  intros Hmk Hall. unfold watch_and_serve. rewrite Hmk. simpl.
  destruct (while_true_renders self open_browser sched (initial c) Hall I)
    as (s' & -> & Hk).
  simpl. by rewrite Hk.
Qed.

Lemma renders_of_a_run_witness :
  renders (trace (fst (watch_and_serve file_session mkdocs_config false
                         [pass 0 2; pass 3 0; pass 0 0; pass 1 1; pass 0 0])))
  = 3.
Proof.
  rewrite (renders_of_a_run file_session mkdocs_config false
             [pass 0 2; pass 3 0; pass 0 0; pass 1 1; pass 0 0]).
  - reflexivity.
  - reflexivity.
  - repeat constructor.
Defined.

(** ** The protocol of the loop *)

Lemma protocol_nil open_browser : protocol open_browser [].
Proof. intros t1 a t2 H. by destruct t1. Qed.

Lemma protocol_snoc open_browser t a :
  protocol open_browser t → step_ok open_browser t a → protocol open_browser (t ++ [a]).
Proof.
  intros Ht Ha t1 b t2 [(-> & -> & ->)|(t2' & -> & ->)]%snoc_split; [done|].
  by eapply Ht.
Qed.

Lemma Inv_signals open_browser n s :
  Inv open_browser (Nat.iter n change_signal s) ↔ Inv open_browser s.
Proof.
  destruct (signals_frame n s) as (_ & Ho & He & _ & _ & _ & Ht).
  unfold Inv. by rewrite J_signals, Ho, He, Ht.
Qed.

Lemma Inv_do_action open_browser a s :
  plain a = true → step_ok open_browser (trace s) a →
  Inv open_browser s → Inv open_browser (do_action a s).
Proof.
  intros Hp Ha (HJ & He & Ht).
  split_and!; [by apply J_plain | done | by apply protocol_snoc].
Qed.

Lemma Inv_initial open_browser c : Inv open_browser (initial c).
Proof. split_and!; [apply loop_inv_initial | done | apply protocol_nil]. Qed.

(** One pass keeps the protocol, however it ends. *)
Lemma triple_loop_body_protocol self open_browser e :
  triple (λ s, Inv open_browser s ∧ B s) (loop_body self open_browser e)
    (λ _ s, Inv open_browser s ∧ process s ≠ None) (Inv open_browser).
Proof.
  unfold loop_body.
  eapply triple_bind with (Q' := λ ev s, Inv open_browser s ∧ B s ∧ ev = event s).
  { apply triple_read. by intros s [? ?]. }
  intros ev.
  eapply triple_bind
    with (Q' := λ ch s, Inv open_browser s ∧ B s ∧ ev = event s
                        ∧ (ch = false → ev ≠ None)).
  { apply triple_read. intros s (? & ? & ?). split_and!; try done. by destruct ev. }
  intros ch.
  eapply triple_bind
    with (Q' := λ _ s, Inv open_browser s ∧ (process s = None → rendered (trace s))).
  { destruct ch.
    - eapply triple_bind
        with (Q' := λ _ s, Inv open_browser s
                           ∧ ∃ t0, trace s = (t0 ++ [Log "Rendering."])%list).
      { apply triple_modify. intros s (? & _).
        split; [by apply Inv_do_action | by eexists]. }
      intros ?.
      eapply triple_bind
        with (Q' := λ _ s, Inv open_browser s
                           ∧ ∃ t0, trace s = (t0 ++ [Log "Rendering."])%list).
      { apply triple_modify. intros s [? ?]. split; [by apply Inv_signals|].
        by destruct (signals_frame (changes_in_render e) s)
          as (_ & _ & _ & _ & _ & _ & ->). }
      intros ?.
      eapply triple_bind
        with (Q' := λ _ s, Inv open_browser s ∧ rendered (trace s)
                           ∧ ∃ t0, trace s = (t0 ++ [Render (Some (watch_files s))])%list).
      { intros s [HI Hlog]. unfold call_render.
        destruct (render self (ArgConfig (pydocmd s)) (stages e)) as [[c files]|x].
        - destruct HI as (HJ & He & Ht). split_and!.
          + split_and!; [by apply (loop_inv_plain _ _ _ (Render (Some files))) | done
                        | by apply protocol_snoc].
          + apply rendered_here.
          + by eexists.
        - by apply Inv_do_action. }
      intros ?.
      eapply triple_bind
        with (Q' := λ obs s,
                Inv open_browser s ∧ rendered (trace s)
                ∧ (∃ t0, trace s = (t0 ++ [Render (Some (watch_files s))])%list)
                ∧ obs = observer s).
      { apply triple_read. by intros s (? & ? & ?). }
      intros obs.
      eapply triple_bind
        with (Q' := λ _ s,
                Inv open_browser s ∧ rendered (trace s) ∧ all_stopped (trace s)
                ∧ ((∃ t0, trace s = (t0 ++ [Render (Some (watch_files s))])%list)
                   ∨ (∃ t0 o', trace s
                               = (t0 ++ [Render (Some (watch_files s)); Stop o'])%list))).
      { destruct obs as [o|].
        - apply triple_modify. intros s (HI & Hr & (t0 & Ht0) & Ho).
          pose proof HI as (HJ & _ & _).
          split_and!.
          + apply Inv_do_action; [done | | done]. simpl.
            rewrite <- (inv_observer _ _ _ HJ). done.
          + by apply rendered_snoc.
          + unfold J in HJ. rewrite <- Ho in HJ. by eapply all_stopped_stop.
          + right. exists t0, o. simpl. rewrite Ht0. by rewrite <- app_assoc.
        - apply triple_ret. intros s (HI & Hr & Ht0 & Ho).
          split_and!; [done | done | | by left].
          destruct HI as (HJ & _). by apply J_all_stopped. }
      intros ?. intros s (HI & Hr & Ha & Hend). unfold call_watch_paths.
      destruct (watch_paths_raises e); [done|].
      destruct HI as (HJ & He & Ht). split; [|intros _; by apply rendered_snoc].
      split_and!; [by eapply loop_inv_watch | done | by apply protocol_snoc].
    - apply triple_ret. intros s (HI & HB & -> & Hev). split; [done|].
      intros Hp. destruct (Hev eq_refl). by apply HB. }
  intros ?.
  eapply triple_bind
    with (Q' := λ p s, Inv open_browser s ∧ (process s = None → rendered (trace s))
                       ∧ p = process s).
  { apply triple_read. by intros s [? ?]. }
  intros p.
  eapply triple_bind with (Q' := λ _ s, Inv open_browser s ∧ process s ≠ None).
  { destruct p as [p|].
    - apply triple_ret. intros s (? & _ & Hp). split; [done|]. by rewrite <- Hp.
    - eapply triple_bind
        with (Q' := λ _ s, Inv open_browser s ∧ process s = None ∧ rendered (trace s)).
      { apply triple_modify. intros s (HI & Hr & Hp).
        split_and!; [by apply Inv_do_action | done | apply rendered_snoc; by apply Hr]. }
      intros ?.
      eapply triple_bind
        with (Q' := λ _ s, Inv open_browser s ∧ process s ≠ None
                           ∧ ∃ t0 p, trace s = (t0 ++ [Serve p])%list).
      { intros s ((HJ & He & Ht) & Hp & Hr). unfold call_mkdocs_serve.
        destruct (mkdocs_serve_raises e); [done|].
        split_and!; [|done|by eexists _, _].
        split_and!; [|done|].
        - unfold J in *. simpl. rewrite Hp in HJ. by apply loop_inv_serve.
        - apply protocol_snoc; [done|]. simpl. split; [|done].
          rewrite <- (inv_process _ _ _ HJ). done. }
      intros ?. destruct open_browser eqn:Hob.
      + unfold call_webbrowser_open. destruct (webbrowser_raises e) as [x|].
        * apply triple_raise. by intros s (? & _).
        * apply triple_modify. intros s (HI & Hp & Hs). split; [|done].
          by apply Inv_do_action.
      + apply triple_ret. by intros s (? & ? & _). }
  intros ?.
  unfold call_event_wait.
  eapply triple_bind
    with (Q' := λ ev s, Inv open_browser s ∧ process s ≠ None ∧ ev = event s).
  { apply triple_read. by intros s [? ?]. }
  intros [i|]; [|apply triple_raise; by intros s (? & _)].
  eapply triple_bind with (Q' := λ _ s, Inv open_browser s ∧ process s ≠ None).
  { apply triple_modify. intros s (HI & Hp & Hev). split; [|done].
    pose proof HI as (HJ & He & _).
    apply Inv_do_action; [done | | done]. simpl.
    rewrite <- (inv_observer _ _ _ HJ), <- (inv_process _ _ _ HJ), <- He. done. }
  intros ?.
  eapply triple_bind with (Q' := λ _ s, Inv open_browser s ∧ process s ≠ None).
  { apply triple_modify. intros s [? ?]. split; [by apply Inv_signals|].
    by destruct (signals_frame (changes_in_wait e) s) as (_ & _ & _ & -> & _). }
  intros ?.
  destruct (wait_raises e) as [x|]; [apply triple_raise; by intros s [? _] | by apply triple_ret].
Qed.

Lemma triple_while_true_protocol self open_browser sched :
  triple (λ s, Inv open_browser s ∧ B s) (while_true self open_browser sched)
    (λ _ s, Inv open_browser s ∧ B s) (Inv open_browser).
Proof.
  induction sched as [|e sched IH]; simpl.
  - by apply triple_ret.
  - eapply triple_bind; [apply triple_loop_body_protocol|].
    intros ? s [HI Hp]. apply IH. split; [done|]. by intros ?.
Qed.

Lemma finally_block_protocol open_browser s :
  Inv open_browser s → protocol open_browser (trace (finally_block s)).
Proof.
  intros (HJ & He & Ht). rewrite finally_block_actions.
  assert (protocol open_browser
            (trace s ++ match observer s with Some o => [Stop o] | None => [] end)) as Hs.
  { destruct (observer s) as [o|] eqn:E; [|by rewrite app_nil_r].
    apply protocol_snoc; [done|]. simpl. by rewrite <- (inv_observer _ _ _ HJ). }
  destruct (process s) as [p|] eqn:E; [|by rewrite app_nil_r].
  rewrite app_assoc. apply protocol_snoc; [done|]. simpl.
  replace (served _) with (served (trace s)); [by rewrite <- (inv_process _ _ _ HJ)|].
  destruct (observer s); [by rewrite served_snoc | by rewrite app_nil_r].
Qed.

(** Every action of a run, up to any point and with the cleanup, is done as
    the protocol has it. *)
Lemma watch_and_serve_protocol self c open_browser sched :
  protocol open_browser (trace (fst (watch_and_serve self c open_browser sched))).
Proof.
  unfold watch_and_serve.
  destruct (isinstance (renderer c) "MkdocsRenderer"); simpl; [|apply protocol_nil].
  pose proof (triple_while_true_protocol self open_browser sched (initial c)
                (conj (Inv_initial open_browser c) (λ _, eq_refl))) as H.
  destruct (while_true self open_browser sched (initial c)) as [s [[]|x]]; simpl.
  - by destruct H as ((_ & _ & ?) & _).
  - by apply finally_block_protocol.
Qed.

(** X6: in every run, a file watch is registered on exactly the files
    that the render just made returned, and only when every earlier
    registration has been stopped: no two registrations are in effect at
    once. *)
Theorem watch_follows_render self c open_browser sched t1 o fs t2 :
  trace (fst (watch_and_serve self c open_browser sched))
  = (t1 ++ Watch o fs :: t2)%list →
  all_stopped t1
  ∧ ((∃ t0, t1 = (t0 ++ [Render (Some fs)])%list)
     ∨ (∃ t0 o', t1 = (t0 ++ [Render (Some fs); Stop o'])%list)).
Proof. intros H. exact (watch_and_serve_protocol self c open_browser sched _ _ _ H). Qed.

Lemma watch_follows_render_witness :
  all_stopped [Log "Rendering."; Render (Some two_files); Watch 0 two_files;
               Log "Starting MkDocs serve."; Serve 1; Wait 0;
               Log "Rendering."; Render (Some two_files); Stop 0]
  ∧ ((∃ t0, [Log "Rendering."; Render (Some two_files); Watch 0 two_files;
             Log "Starting MkDocs serve."; Serve 1; Wait 0;
             Log "Rendering."; Render (Some two_files); Stop 0]
            = (t0 ++ [Render (Some two_files)])%list)
     ∨ (∃ t0 o', [Log "Rendering."; Render (Some two_files); Watch 0 two_files;
                  Log "Starting MkDocs serve."; Serve 1; Wait 0;
                  Log "Rendering."; Render (Some two_files); Stop 0]
                 = (t0 ++ [Render (Some two_files); Stop o'])%list)).
Proof.
  apply (watch_follows_render file_session mkdocs_config false [pass 0 1; pass 0 0]
           _ 2 two_files [Wait 2]).
  vm_compute. reflexivity.
Defined.

(** X7: in every run the browser is opened only when [open_browser] was
    given, on the address of the preview server, and as the action right
    after the start of the process; so at most once. *)
Theorem browser_opens_after_serve self c open_browser sched t1 url t2 :
  trace (fst (watch_and_serve self c open_browser sched))
  = (t1 ++ OpenBrowser url :: t2)%list →
  open_browser = true ∧ url = "http://localhost:8000"
  ∧ ∃ t0 p, t1 = (t0 ++ [Serve p])%list.
Proof. intros H. exact (watch_and_serve_protocol self c open_browser sched _ _ _ H). Qed.

Lemma browser_opens_after_serve_witness :
  true = true ∧ "http://localhost:8000" = "http://localhost:8000"
  ∧ ∃ t0 p, [Log "Rendering."; Render (Some two_files); Watch 0 two_files;
             Log "Starting MkDocs serve."; Serve 1]
            = (t0 ++ [Serve p])%list.
Proof.
  apply (browser_opens_after_serve file_session mkdocs_config true [pass 0 0]
           _ "http://localhost:8000" [Wait 0]).
  vm_compute. reflexivity.
Defined.

(** X8: in every run the loop waits on the event of the last registration
    made, with the process started, and every stop, in the loop and in the
    cleanup, is a stop of the observer of the last registration made. *)
Theorem wait_and_stop_on_last_watch self c open_browser sched :
  let t := trace (fst (watch_and_serve self c open_browser sched)) in
  (∀ t1 i t2, t = (t1 ++ Wait i :: t2)%list →
     last_watch t1 = Some i ∧ served t1 ≠ None)
  ∧ (∀ t1 o t2, t = (t1 ++ Stop o :: t2)%list → last_watch t1 = Some o).
Proof.
  simpl. split; intros t1 x t2 H;
    exact (watch_and_serve_protocol self c open_browser sched _ _ _ H).
Qed.

(** ** The command line *)

Lemma find_config_file (f : string → bool) :
  List.find f config_filenames
  = if f "pydoc-markdown.yml" then Some "pydoc-markdown.yml"
    else if f "pydoc-markdown.yaml" then Some "pydoc-markdown.yaml" else None.
Proof. reflexivity. Qed.

(** Without a bootstrap flag [cli] does nothing to the outside before the
    session is built but configure the logging. *)
Lemma cli_run_effects fs safe_load a e :
  opt_bootstrap a = false → opt_bootstrap_mkdocs a = false →
  e ∈ fst (cli fs safe_load a) → ∃ level, e = BasicConfig "%(message)s" level.
Proof.
  intros Hb Hm. unfold cli. rewrite Hb, Hm. simpl.
  repeat case_match; simpl;
    rewrite ?list_elem_of_singleton, ?elem_of_nil; try done; intros ->; by eexists.
Qed.

(** X9: [cli] writes no file but [pydoc-markdown.yml], and writes it only
    when exactly one of the bootstrap flags is given, nothing exists under
    that name and no file [pydoc-markdown.yaml] exists; the content is
    the template of the flag, and the call returns. *)
Theorem cli_never_overwrites fs safe_load a filename content :
  WriteFile filename content ∈ fst (cli fs safe_load a) →
  filename = "pydoc-markdown.yml"
  ∧ fs !! filename = None
  ∧ isfile fs "pydoc-markdown.yaml" = false
  ∧ xorb (opt_bootstrap a) (opt_bootstrap_mkdocs a) = true
  ∧ content = (if opt_bootstrap_mkdocs a then DEFAULT_CONFIG_MKDOCS else DEFAULT_CONFIG)
  ∧ snd (cli fs safe_load a) = Stopped Returned.
Proof.
  destruct (opt_bootstrap a) eqn:Hb, (opt_bootstrap_mkdocs a) eqn:Hm.
  4: { intros (l & ?)%cli_run_effects; done. }
  all: unfold cli; rewrite Hb, Hm, find_config_file; simpl.
  1: by rewrite elem_of_nil.
  all: destruct (truthy_str (opt_config a) || nonempty (opt_modules a)
                 || nonempty (opt_search_path a) || is_true (opt_render_toc a)
                 || is_true (opt_py2 a) || opt_watch_and_serve a || opt_open_browser a);
    simpl; [by rewrite elem_of_nil|].
  all: destruct (isfile fs "pydoc-markdown.yml") eqn:E1; simpl; [by rewrite elem_of_nil|].
  all: destruct (isfile fs "pydoc-markdown.yaml") eqn:E2; simpl; [by rewrite elem_of_nil|].
  all: unfold isfile in E1.
  all: destruct (fs !! "pydoc-markdown.yml") as [[c0|]|] eqn:E3; simpl;
    [done | by rewrite elem_of_nil |].
  all: rewrite elem_of_cons, list_elem_of_singleton; intros [[= -> ->]|?]; done.
Qed.

Lemma cli_never_overwrites_witness :
  "pydoc-markdown.yml" = "pydoc-markdown.yml"
  ∧ (∅ : gmap string Node) !! "pydoc-markdown.yml" = None
  ∧ isfile ∅ "pydoc-markdown.yaml" = false
  ∧ xorb (opt_bootstrap (bootstrap_args true)) (opt_bootstrap_mkdocs (bootstrap_args true))
    = true
  ∧ DEFAULT_CONFIG_MKDOCS
    = (if opt_bootstrap_mkdocs (bootstrap_args true) then DEFAULT_CONFIG_MKDOCS
       else DEFAULT_CONFIG)
  ∧ snd (cli ∅ (λ _, Normal YNull) (bootstrap_args true)) = Stopped Returned.
Proof.
  apply (cli_never_overwrites ∅ (λ _, Normal YNull) (bootstrap_args true)).
  vm_compute. apply list_elem_of_here.
Defined.

(** A call that returns was a bootstrap that wrote the file. *)
Lemma cli_returned fs safe_load a :
  snd (cli fs safe_load a) = Stopped Returned →
  xorb (opt_bootstrap a) (opt_bootstrap_mkdocs a) = true
  ∧ fst (cli fs safe_load a)
    = [WriteFile "pydoc-markdown.yml"
         (if opt_bootstrap_mkdocs a then DEFAULT_CONFIG_MKDOCS else DEFAULT_CONFIG);
       Print "created pydoc-markdown.yml"].
Proof.
  unfold cli. rewrite find_config_file.
  destruct (opt_bootstrap a) eqn:Hb, (opt_bootstrap_mkdocs a) eqn:Hm; simpl; [done| | |].
  3: { repeat case_match; simpl; done. }
  all: destruct (truthy_str (opt_config a) || nonempty (opt_modules a)
                 || nonempty (opt_search_path a) || is_true (opt_render_toc a)
                 || is_true (opt_py2 a) || opt_watch_and_serve a || opt_open_browser a);
    simpl; [done|].
  all: destruct (isfile fs "pydoc-markdown.yml"); simpl; [done|].
  all: destruct (isfile fs "pydoc-markdown.yaml"); simpl; [done|].
  all: destruct (fs !! "pydoc-markdown.yml") as [[c0|]|]; simpl; done.
Qed.

(** X10: after a bootstrap that returned, every further call with a
    bootstrap flag writes nothing and exits with status 1; with exactly
    one flag and nothing else the error is that the file already
    exists. *)
Theorem bootstrap_is_not_repeated fs safe_load a a' :
  snd (cli fs safe_load a) = Stopped Returned →
  opt_bootstrap a' || opt_bootstrap_mkdocs a' = true →
  let fs' := run_effects fs (fst (cli fs safe_load a)) in
  fst (cli fs' safe_load a') = []
  ∧ (∃ msg, snd (cli fs' safe_load a') = Stopped (Exited msg 1))
  ∧ (without_falsy a' = bootstrap_args (opt_bootstrap_mkdocs a') →
     snd (cli fs' safe_load a')
     = Stopped (Exited "error: file already exists: 'pydoc-markdown.yml'" 1)).
Proof.
  intros [_ ->]%cli_returned Hflag. simpl. revert Hflag.
  set (content := if opt_bootstrap_mkdocs a then _ else _).
  assert (isfile (<["pydoc-markdown.yml" := RegularFile content]> fs) "pydoc-markdown.yml"
          = true) as Hfile by (unfold isfile; by rewrite lookup_insert_eq).
  unfold cli. rewrite find_config_file, Hfile. simpl.
  destruct (opt_bootstrap a') eqn:Hb, (opt_bootstrap_mkdocs a') eqn:Hm; simpl;
    intros Hflag; [| | |done]; clear Hflag.
  - split_and!; [done | by eexists |]. unfold without_falsy, bootstrap_args.
    rewrite Hb, Hm. simpl. intros [=].
  - destruct (truthy_str (opt_config a') || nonempty (opt_modules a')
              || nonempty (opt_search_path a') || is_true (opt_render_toc a')
              || is_true (opt_py2 a') || opt_watch_and_serve a' || opt_open_browser a')
      eqn:Hsole; simpl; (split_and!; [done | by eexists |]); [|done].
    unfold without_falsy, bootstrap_args. rewrite Hb, Hm. simpl. intros [= H1 H2 H3 H4 H5 H6 H7].
    rewrite H2, H3, H6, H7 in Hsole. revert Hsole H1 H4 H5.
    destruct (opt_config a') as [[|? ?]|], (opt_render_toc a') as [[]|],
      (opt_py2 a') as [[]|]; simpl; done.
  - destruct (truthy_str (opt_config a') || nonempty (opt_modules a')
              || nonempty (opt_search_path a') || is_true (opt_render_toc a')
              || is_true (opt_py2 a') || opt_watch_and_serve a' || opt_open_browser a')
      eqn:Hsole; simpl; (split_and!; [done | by eexists |]); [|done].
    unfold without_falsy, bootstrap_args. rewrite Hb, Hm. simpl. intros [= H1 H2 H3 H4 H5 H6 H7].
    rewrite H2, H3, H6, H7 in Hsole. revert Hsole H1 H4 H5.
    destruct (opt_config a') as [[|? ?]|], (opt_render_toc a') as [[]|],
      (opt_py2 a') as [[]|]; simpl; done.
Qed.

Lemma bootstrap_is_not_repeated_witness :
  let fs' := run_effects ∅ (fst (cli ∅ (λ _, Normal YNull) (bootstrap_args false))) in
  fst (cli fs' (λ _, Normal YNull) (bootstrap_args true)) = []
  ∧ (∃ msg, snd (cli fs' (λ _, Normal YNull) (bootstrap_args true))
            = Stopped (Exited msg 1))
  ∧ (without_falsy (bootstrap_args true)
     = bootstrap_args (opt_bootstrap_mkdocs (bootstrap_args true)) →
     snd (cli fs' (λ _, Normal YNull) (bootstrap_args true))
     = Stopped (Exited "error: file already exists: 'pydoc-markdown.yml'" 1)).
Proof.
  apply (bootstrap_is_not_repeated ∅ (λ _, Normal YNull) (bootstrap_args false)
           (bootstrap_args true)); reflexivity.
Defined.

(** X11: a bootstrap and then a call without arguments in the directory
    it left: the file holds the template, and the call goes on with the
    session on [pydoc-markdown.yml], found as the default configuration
    file. *)
Theorem bootstrap_then_run fs safe_load a :
  snd (cli fs safe_load a) = Stopped Returned →
  let fs' := run_effects fs (fst (cli fs safe_load a)) in
  fs' !! "pydoc-markdown.yml"
  = Some (RegularFile (if opt_bootstrap_mkdocs a then DEFAULT_CONFIG_MKDOCS
                       else DEFAULT_CONFIG))
  ∧ (∀ x, x ≠ "pydoc-markdown.yml" → fs' !! x = fs !! x)
  ∧ snd (cli fs' safe_load no_args)
    = Proceed (YStr "pydoc-markdown.yml") None [] [] None false false.
Proof.
  intros [_ ->]%cli_returned. simpl.
  split_and!; [apply lookup_insert_eq | intros x Hx; by apply lookup_insert_ne |].
  unfold cli. simpl.
  unfold path_exists. rewrite lookup_insert_eq.
  by rewrite bool_decide_eq_true_2 by by eexists.
Qed.

Lemma bootstrap_then_run_witness :
  let fs' := run_effects ∅ (fst (cli ∅ (λ _, Normal YNull) (bootstrap_args false))) in
  fs' !! "pydoc-markdown.yml"
  = Some (RegularFile (if opt_bootstrap_mkdocs (bootstrap_args false)
                       then DEFAULT_CONFIG_MKDOCS else DEFAULT_CONFIG))
  ∧ (∀ x, x ≠ "pydoc-markdown.yml" → fs' !! x = (∅ : gmap string Node) !! x)
  ∧ snd (cli fs' (λ _, Normal YNull) no_args)
    = Proceed (YStr "pydoc-markdown.yml") None [] [] None false false.
Proof.
  apply (bootstrap_then_run ∅ (λ _, Normal YNull) (bootstrap_args false)).
  reflexivity.
Defined.

(** X12: without a bootstrap flag, [cli] does not look into the working
    directory when a module, a search path or one of the Python switches
    is given, nor when a configuration is given that is not an inline
    document parsed to null: the call is the same in every directory. *)
Theorem working_directory_not_consulted fs fs' safe_load a :
  opt_bootstrap a = false → opt_bootstrap_mkdocs a = false →
  (nonempty (opt_modules a) || nonempty (opt_search_path a)
   || bool_decide (is_Some (opt_py2 a)) = true)
  ∨ (∃ c, opt_config a = Some c
          ∧ (inline c = false ∨ safe_load c ≠ Normal YNull)) →
  cli fs safe_load a = cli fs' safe_load a.
Proof.
  intros Hb Hm Hwhy. unfold cli. rewrite Hb, Hm. simpl.
  destruct (opt_open_browser a && negb (opt_watch_and_serve a)); [done|].
  destruct Hwhy as [->|(c & -> & Hc)]; simpl.
  - by repeat case_match.
  - destruct c as [|x c]; simpl; [done|].
    destruct (inline (String x c)) eqn:Hin; [|done].
    destruct Hc as [?|Hc]; [done|].
    destruct (safe_load (String x c)) as [[]|]; simpl; done.
Qed.

Lemma working_directory_not_consulted_witness :
  cli {[ "pydoc-markdown.yml" := RegularFile "" ]} (λ _, Normal YNull)
    (mkArgs None false false false false ["pkg.a"] [] None None false false)
  = cli ∅ (λ _, Normal YNull)
      (mkArgs None false false false false ["pkg.a"] [] None None false false).
Proof.
  apply working_directory_not_consulted; [reflexivity | reflexivity |].
  left. reflexivity.
Defined.

(** X13: when no configuration is given, nor a module, a search path or a
    Python switch, the session gets [pydoc-markdown.yml] if that exists,
    else [pydoc-markdown.yaml] if that exists, a directory counting as
    well; the call exits with the error that no configuration file was
    found exactly when neither exists. *)
Theorem default_config_discovery fs safe_load a :
  opt_bootstrap a = false → opt_bootstrap_mkdocs a = false →
  opt_open_browser a && negb (opt_watch_and_serve a) = false →
  opt_config a = None →
  opt_modules a = [] → opt_search_path a = [] → opt_py2 a = None →
  (is_Some (fs !! "pydoc-markdown.yml") →
   snd (cli fs safe_load a)
   = Proceed (YStr "pydoc-markdown.yml") (opt_render_toc a) [] [] None
       (opt_watch_and_serve a) (opt_open_browser a))
  ∧ (fs !! "pydoc-markdown.yml" = None → is_Some (fs !! "pydoc-markdown.yaml") →
     snd (cli fs safe_load a)
     = Proceed (YStr "pydoc-markdown.yaml") (opt_render_toc a) [] [] None
         (opt_watch_and_serve a) (opt_open_browser a))
  ∧ (snd (cli fs safe_load a) = Stopped (Exited "error: config file not found." 1)
     ↔ fs !! "pydoc-markdown.yml" = None ∧ fs !! "pydoc-markdown.yaml" = None).
Proof.
  intros Hb Hm Ho Hc Hmod Hsp Hpy.
  unfold cli. rewrite Hb, Hm, Ho, Hc, Hmod, Hsp, Hpy, find_config_file. simpl.
  unfold path_exists.
  destruct (fs !! "pydoc-markdown.yml") as [n1|] eqn:E1; simpl.
  - rewrite ?bool_decide_eq_true_2 by by eexists. simpl.
    split_and!; [done | done |]. split; [done | by intros [? _]].
  - rewrite ?bool_decide_eq_false_2 by by intros [? ?].
    destruct (fs !! "pydoc-markdown.yaml") as [n2|] eqn:E2; simpl.
    + rewrite ?bool_decide_eq_true_2 by by eexists. simpl.
      split_and!; [by intros [? ?] | done |]. split; [done | by intros [_ ?]].
    + rewrite ?bool_decide_eq_false_2 by by intros [? ?]. simpl.
      split_and!; [by intros [? ?] | by intros _ [? ?] | done].
Qed.

Lemma default_config_discovery_witness :
  (is_Some (({[ "pydoc-markdown.yaml" := Directory ]} : gmap string Node)
              !! "pydoc-markdown.yml") →
   snd (cli {[ "pydoc-markdown.yaml" := Directory ]} (λ _, Normal YNull) no_args)
   = Proceed (YStr "pydoc-markdown.yml") None [] [] None false false)
  ∧ (({[ "pydoc-markdown.yaml" := Directory ]} : gmap string Node)
       !! "pydoc-markdown.yml" = None →
     is_Some (({[ "pydoc-markdown.yaml" := Directory ]} : gmap string Node)
                !! "pydoc-markdown.yaml") →
     snd (cli {[ "pydoc-markdown.yaml" := Directory ]} (λ _, Normal YNull) no_args)
     = Proceed (YStr "pydoc-markdown.yaml") None [] [] None false false)
  ∧ (snd (cli {[ "pydoc-markdown.yaml" := Directory ]} (λ _, Normal YNull) no_args)
     = Stopped (Exited "error: config file not found." 1)
     ↔ ({[ "pydoc-markdown.yaml" := Directory ]} : gmap string Node)
         !! "pydoc-markdown.yml" = None
       ∧ ({[ "pydoc-markdown.yaml" := Directory ]} : gmap string Node)
           !! "pydoc-markdown.yaml" = None).
Proof.
  apply (default_config_discovery {[ "pydoc-markdown.yaml" := Directory ]}
           (λ _, Normal YNull) no_args); reflexivity.
Defined.

(** X14: without a bootstrap flag, an inline configuration that
    [yaml.safe_load] parses to null is as good as none: the call is the
    one without the configuration argument. *)
Theorem inline_null_is_no_config fs safe_load a c :
  opt_bootstrap a = false → opt_bootstrap_mkdocs a = false →
  opt_config a = Some c → inline c = true → safe_load c = Normal YNull →
  cli fs safe_load a = cli fs safe_load (set_opt_config None a).
Proof.
  intros Hb Hm Hc Hin Hnull. unfold cli. rewrite Hb, Hm, Hc. simpl.
  rewrite Hb, Hm. simpl.
  destruct (opt_open_browser a && negb (opt_watch_and_serve a)); [done|].
  destruct c as [|x c]; [done|]. simpl. by rewrite Hin, Hnull.
Qed.

Lemma inline_null_is_no_config_witness :
  cli ∅ (λ _, Normal YNull)
    (mkArgs (Some (String newline "")) false false false false [] [] None None false false)
  = cli ∅ (λ _, Normal YNull)
      (set_opt_config None
         (mkArgs (Some (String newline "")) false false false false [] [] None None
            false false)).
Proof.
  apply (inline_null_is_no_config ∅ (λ _, Normal YNull) _ (String newline ""));
    reflexivity.
Defined.


